(** * oura-scraper: OAuth2 token lifecycle and scrape orchestration

    A shallow embedding of [oura_scraper/auth.py] and
    [oura_scraper/scraper.py], and the properties of the token lifecycle
    (expiry policy, pluggable token stores, refresh, interactive
    authorization, callback handler) and of the per-endpoint failure
    isolation of the scraper.

    Conventions of the embedding.
    - A [datetime] is a timezone-aware instant, as every constructor in the
      source produces ([datetime.now(UTC) + timedelta(...)]): an integer
      number of microseconds since the epoch, the resolution of Python's
      [datetime].  A [timedelta] is a number of microseconds.
    - A raised exception is a value of [exn]; a call that may raise returns
      [exn + A], and a method that changes state also returns the state it
      leaves behind, which is the state at the [raise] when it raises.
    - [datetime.now(UTC)] reads the field [now] of [Env]: one call of a
      method is taken at one instant.
    - Calls of [logger] have no effect on the state and are left out. *)

From Stdlib Require Import ZArith Lia Ascii String List.
From stdpp Require Import base option strings gmap fin_maps pretty.

Open Scope Z_scope.
Open Scope string_scope.

(** ** Time *)

Definition datetime := Z.
Definition timedelta := Z.

Definition microseconds (n : Z) : timedelta := n.
Definition seconds (n : Z) : timedelta := n * 1000000.
Definition minutes (n : Z) : timedelta := seconds (n * 60).
Definition days (n : Z) : timedelta := seconds (n * 86400).

(** ** Exceptions *)

Inductive exn :=
| ValueError (msg : string)
| KeyError (key : string)
| TypeError (msg : string)
| JSONDecodeError (msg : string)
| HTTPStatusError (status_code : Z)
| PsycopgError (msg : string).

Definition result (A : Type) : Type := exn + A.

(** ** [OAuthTokens] *)

Record OAuthTokens := mkOAuthTokens {
  access_token : string;
  refresh_token : string;
  expires_at : datetime;
  token_type : string
}.

(** [OAuthTokens.is_expired], at the instant [now]. *)
Definition is_expired (now : datetime) (self : OAuthTokens) : bool :=
  now >=? (expires_at self - minutes 5).

(** [OAuthTokens.to_dict]: the dictionary handed to [json.dumps].  All four
    members are strings; [isoformat] is [datetime.isoformat]. *)
Definition to_dict (isoformat : datetime -> string) (self : OAuthTokens)
  : gmap string string :=
  {[ "access_token" := access_token self;
     "refresh_token" := refresh_token self;
     "expires_at" := isoformat (expires_at self);
     "token_type" := token_type self ]}.

(** A value of [result] is bound as in Python: the first exception ends
    the computation. *)
#[global] Instance result_ret : MRet result := fun A a => inr a.
#[global] Instance result_bind : MBind result :=
  fun A B f m => match m with inl e => inl e | inr a => f a end.

(** Python truthiness of a [str]: the empty string is falsy. *)
Definition truthy (s : string) : bool := negb (String.eqb s "").

(** Truthiness of an attribute that is [None] or a [str]. *)
Definition truthy_opt (a : option string) : bool :=
  match a with
  | Some s => truthy s
  | None => false
  end.

(** [a or b] on an optional string ([None] and the empty string are falsy). *)
Definition or_else (a : option string) (b : string) : string :=
  match a with
  | Some s => if truthy s then s else b
  | None => b
  end.

(** ** Configuration ([config.Settings])

    The members read by [auth.py]; each defaults to the empty string when
    the environment does not supply it. *)
Record Settings := mkSettings {
  settings_client_id : string;
  settings_client_secret : string;
  settings_access_token : string;
  settings_refresh_token : string
}.

(** What a method reads from its surroundings: [get_settings()] and
    [datetime.now(UTC)]. *)
Record Env := mkEnv {
  settings : Settings;
  now : datetime
}.

(** ** JSON documents

    The value of [json.loads] on a token file: an object, here with string
    members as [to_dict] writes them, or any other JSON value (array,
    string, number, [true], [false], [null]). *)
Inductive json :=
| JObject (members : gmap string string)
| JNotObject.

(** [data[key]] on the value of [json.loads]. *)
Definition getitem (data : json) (key : string) : result string :=
  match data with
  | JObject d =>
      match d !! key with
      | Some v => inr v
      | None => inl (KeyError key)
      end
  | JNotObject => inl (TypeError "indices must be integers")
  end.

(** [data.get(key, dflt)], reached only after [data[...]] succeeded. *)
Definition get_default (data : json) (key dflt : string) : string :=
  match data with
  | JObject d => default dflt (d !! key)
  | JNotObject => dflt
  end.

(** ** The token-store protocol ([TokenStorageProtocol])

    [S] is the durable state a backend works on.  [save] and [clear] leave
    a new durable state; [load] only reads. *)
Class TokenStorageProtocol (S : Type) := {
  save : OAuthTokens -> S -> result unit * S;
  load : Env -> S -> result (option OAuthTokens);
  clear : S -> result unit * S
}.

(** ** File backend ([TokenStorage]) *)

(** The token file at [self.path]: its text and its permission bits. *)
Record file := mkFile {
  content : string;
  mode : Z
}.

Section FileBackend.

(** The library functions the file backend calls. [json_loads] raises
    [JSONDecodeError] on text that is not JSON; [fromisoformat] raises
    [ValueError] on text that is not an ISO 8601 date. *)
Variable json_dumps : gmap string string -> string.
Variable json_loads : string -> result json.
Variable isoformat : datetime -> string.
Variable fromisoformat : string -> result datetime.

(** [OAuthTokens.from_dict]. *)
Definition from_dict (data : json) : result OAuthTokens :=
  a ← getitem data "access_token";
  r ← getitem data "refresh_token";
  e ← getitem data "expires_at";
  dt ← fromisoformat e;
  mret (mkOAuthTokens a r dt (get_default data "token_type" "bearer")).

(** [TokenStorage.save]: the absent file is created, an existing one is
    overwritten, and its mode is set to [0o600]. *)
Definition file_save (tokens : OAuthTokens) (fs : option file)
  : result unit * option file :=
  (inr tt, Some (mkFile (json_dumps (to_dict isoformat tokens)) 384)).

(** [TokenStorage.load]. *)
Definition file_load (env : Env) (fs : option file)
  : result (option OAuthTokens) :=
  if truthy (settings_access_token (settings env))
     && truthy (settings_refresh_token (settings env))
  then
    inr (Some (mkOAuthTokens (settings_access_token (settings env))
                             (settings_refresh_token (settings env))
                             (now env + days 365)
                             "bearer"))
  else
    match fs with
    | None => inr None
    | Some f =>
        match data ← json_loads (content f); from_dict data with
        | inr tokens => inr (Some tokens)
        | inl (JSONDecodeError _) => inr None
        | inl (KeyError _) => inr None
        | inl e => inl e
        end
    end.

(** [TokenStorage.clear]. *)
Definition file_clear (fs : option file) : result unit * option file :=
  (inr tt, None).

#[export] Instance TokenStorage : TokenStorageProtocol (option file) := {
  save := file_save;
  load := file_load;
  clear := file_clear
}.

End FileBackend.

(** ** Database backend ([DatabaseTokenStorage]) *)

(** The row [id = 1] of table [oauth_tokens], with the columns the code
    reads back.  The table's declaration is not part of [db/schema.py]; a
    column holds the value written to it, and [token_type] may be [NULL],
    which the code guards against.  Column [updated_at], set to the
    server's [NOW()] and never read, is left out. *)
Record oauth_tokens_row := mkRow {
  row_access_token : string;
  row_refresh_token : string;
  row_expires_at : datetime;
  row_token_type : option string
}.

(** The database behind [database_url]: whether [psycopg.connect] reaches
    it, and the one-row table. *)
Record Database := mkDatabase {
  reachable : bool;
  oauth_tokens : option oauth_tokens_row
}.

(** [DatabaseTokenStorage.save]: an upsert on the fixed key. *)
Definition db_save (tokens : OAuthTokens) (db : Database)
  : result unit * Database :=
  if reachable db then
    (inr tt,
     mkDatabase true
       (Some (mkRow (access_token tokens) (refresh_token tokens)
                    (expires_at tokens) (Some (token_type tokens)))))
  else (inl (PsycopgError "connection failed"), db).

(** [DatabaseTokenStorage.load]. *)
Definition db_load (env : Env) (db : Database) : result (option OAuthTokens) :=
  if truthy (settings_access_token (settings env))
     && truthy (settings_refresh_token (settings env))
  then
    inr (Some (mkOAuthTokens (settings_access_token (settings env))
                             (settings_refresh_token (settings env))
                             (now env + days 365)
                             "bearer"))
  else
    if reachable db then
      match oauth_tokens db with
      | Some row =>
          inr (Some (mkOAuthTokens (row_access_token row)
                                   (row_refresh_token row)
                                   (row_expires_at row)
                                   (or_else (row_token_type row) "bearer")))
      | None => inr None
      end
    else inr None.

(** [DatabaseTokenStorage.clear]. *)
Definition db_clear (db : Database) : result unit * Database :=
  if reachable db then (inr tt, mkDatabase true None)
  else (inl (PsycopgError "connection failed"), db).

#[export] Instance DatabaseTokenStorage : TokenStorageProtocol Database := {
  save := db_save;
  load := db_load;
  clear := db_clear
}.

(** ** The OAuth callback handler ([OAuthCallbackHandler]) *)

(** The class attributes through which the handler hands its result to
    [authorize_interactive]. *)
Record OAuthCallbackHandler := mkHandler {
  authorization_code : option string;
  state : option string;
  error : option string
}.

(** What [_send_response] writes to the browser. *)
Record Reply := mkReply {
  reply_status : Z;
  reply_html : string
}.

(** [OAuthCallbackHandler._send_response]. *)
Definition _send_response (message : string) (status : Z) : Reply :=
  mkReply status ("<html><body><h1>" ++ message ++ "</h1></body></html>").

(** [OAuthCallbackHandler.do_GET] on the value of [urllib.parse.parse_qs] for
    the request: each parameter name that occurs in the query is mapped to
    the list of its values, which has a first element. *)
Definition do_GET (params : gmap string (string * list string))
    (cls : OAuthCallbackHandler) : OAuthCallbackHandler * Reply :=
  match params !! "error" with
  | Some err =>
      (mkHandler (authorization_code cls) (state cls) (Some (fst err)),
       _send_response "Authorization denied. You can close this window." 200)
  | None =>
      match params !! "code" with
      | Some code =>
          (mkHandler (Some (fst code)) (fst <$> params !! "state") (error cls),
           _send_response
             "Authorization successful! You can close this window." 200)
      | None =>
          (cls,
           _send_response "Invalid callback. Missing code parameter." 400)
      end
  end.

(** ** The session manager ([OuraAuth]) *)

Definition AUTHORIZE_URL : string := "https://cloud.ouraring.com/oauth/authorize".

Definition ALL_SCOPES : list string :=
  ["email"; "personal"; "daily"; "heartrate"; "workout"; "tag"; "session";
   "spo2"].

(** The form posted to [TOKEN_URL]. *)
Inductive grant :=
| authorization_code_grant (code redirect_uri client_id client_secret : string)
| refresh_token_grant (refresh_token client_id client_secret : string).

(** The JSON object of a token response, through the four members
    [from_token_response] reads; a member is absent or has the type the
    token endpoint gives it. *)
Record token_response := mkTokenResponse {
  response_access_token : option string;
  response_refresh_token : option string;
  response_expires_in : option Z;
  response_token_type : option string
}.

(** The value of [httpx.post]. *)
Record Response := mkResponse {
  status_code : Z;
  response_json : token_response
}.

(** [httpx.Response.is_success]. *)
Definition is_success (response : Response) : bool :=
  ((200 <=? status_code response)%Z && (status_code response <=? 299)%Z).

(** The session manager [self] together with what its methods act on: the
    durable state of its storage backend, the forms posted to the token
    endpoint so far, the URLs handed to [webbrowser.open], and the class
    attributes of the callback handler. *)
Record OuraAuth (S : Type) := mkOuraAuth {
  client_id : string;
  client_secret : string;
  storage : S;
  _tokens : option OAuthTokens;
  posted : list grant;
  opened : list string;
  handler : OAuthCallbackHandler
}.
Arguments mkOuraAuth {S}.
Arguments client_id {S}.
Arguments client_secret {S}.
Arguments storage {S}.
Arguments _tokens {S}.
Arguments posted {S}.
Arguments opened {S}.
Arguments handler {S}.

Definition set_storage {S} (self : OuraAuth S) (s : S) : OuraAuth S :=
  mkOuraAuth (client_id self) (client_secret self) s (_tokens self)
             (posted self) (opened self) (handler self).

Definition set_tokens {S} (self : OuraAuth S) (t : option OAuthTokens)
  : OuraAuth S :=
  mkOuraAuth (client_id self) (client_secret self) (storage self) t
             (posted self) (opened self) (handler self).

Definition add_posted {S} (self : OuraAuth S) (g : grant) : OuraAuth S :=
  mkOuraAuth (client_id self) (client_secret self) (storage self)
             (_tokens self) (posted self ++ [g]) (opened self) (handler self).

Definition add_opened {S} (self : OuraAuth S) (url : string) : OuraAuth S :=
  mkOuraAuth (client_id self) (client_secret self) (storage self)
             (_tokens self) (posted self) (opened self ++ [url]) (handler self).

Definition set_handler {S} (self : OuraAuth S) (h : OAuthCallbackHandler)
  : OuraAuth S :=
  mkOuraAuth (client_id self) (client_secret self) (storage self)
             (_tokens self) (posted self) (opened self) h.

(** A method of [OuraAuth]: it returns or raises, and leaves a state. *)
Definition method (S A : Type) : Type := OuraAuth S -> result A * OuraAuth S.

#[global] Instance method_ret {S} : MRet (method S) :=
  fun A a self => (inr a, self).
#[global] Instance method_bind {S} : MBind (method S) :=
  fun A B f m self =>
    match m self with
    | (inl e, self') => (inl e, self')
    | (inr a, self') => f a self'
    end.

Definition raise {S A} (e : exn) : method S A := fun self => (inl e, self).

(** A computation that only returns or raises, run inside a method. *)
Definition lift {S A} (r : result A) : method S A := fun self => (r, self).

(** Reading an attribute of [self], and assigning to one. *)
Definition gets {S A} (f : OuraAuth S -> A) : method S A :=
  fun self => (inr (f self), self).

Definition modify {S} (f : OuraAuth S -> OuraAuth S) : method S unit :=
  fun self => (inr tt, f self).

Section OuraAuth.

Context {S : Type} `{!TokenStorageProtocol S}.

(** The surroundings of one call: configuration and clock, and the
    vendor's token endpoint answering a posted form. *)
Variable env : Env.
Variable token_endpoint : grant -> Response.

(** [self.storage.load()] and [self.storage.save(tokens)]. *)
Definition storage_load : method S (option OAuthTokens) :=
  fun self => (load env (storage self), self).

Definition storage_save (tokens : OAuthTokens) : method S unit :=
  fun self =>
    let '(r, s) := save tokens (storage self) in (r, set_storage self s).

(** [httpx.post(TOKEN_URL, data=data, ...)]. *)
Definition httpx_post (data : grant) : method S Response :=
  fun self => (inr (token_endpoint data), add_posted self data).

(** [response.raise_for_status()]. *)
Definition raise_for_status (response : Response) : method S unit :=
  if is_success response then mret tt
  else raise (HTTPStatusError (status_code response)).

(** [response[key]] on the token response. *)
Definition member (key : string) (v : option string) : result string :=
  match v with
  | Some s => inr s
  | None => inl (KeyError key)
  end.

(** [OAuthTokens.from_token_response]. *)
Definition from_token_response (response : token_response)
  : result OAuthTokens :=
  let expires_in := default 86400 (response_expires_in response) in
  let expires_at := now env + seconds expires_in in
  a ← member "access_token" (response_access_token response);
  r ← member "refresh_token" (response_refresh_token response);
  mret (mkOAuthTokens a r expires_at
          (default "bearer" (response_token_type response))).

(** [OuraAuth.exchange_code]. *)
Definition exchange_code (code redirect_uri : string)
  : method S OAuthTokens :=
  id ← gets client_id;
  secret ← gets client_secret;
  response ← httpx_post (authorization_code_grant code redirect_uri id secret);
  raise_for_status response;;
  tokens ← lift (from_token_response (response_json response));
  storage_save tokens;;
  modify (fun self => set_tokens self (Some tokens));;
  mret tokens.

(** [OuraAuth.refresh_tokens]; [supplied] is the argument
    [refresh_token], [None] when the caller gives none. *)
Definition refresh_tokens (supplied : option string)
  : method S OAuthTokens :=
  token ←
    match supplied with
    | None =>
        tokens ← storage_load;
        match tokens with
        | None =>
            raise (ValueError
              "No stored tokens and no refresh_token provided")
        | Some tokens => mret (refresh_token tokens)
        end
    | Some token => mret token
    end;
  id ← gets client_id;
  secret ← gets client_secret;
  response ← httpx_post (refresh_token_grant token id secret);
  raise_for_status response;;
  tokens ← lift (from_token_response (response_json response));
  storage_save tokens;;
  modify (fun self => set_tokens self (Some tokens));;
  mret tokens.

(** The guard [self._tokens and not self._tokens.is_expired()]: the
    cached pair when it passes. *)
Definition cached_valid (self : OuraAuth S) : option OAuthTokens :=
  match _tokens self with
  | Some cached => if is_expired (now env) cached then None else Some cached
  | None => None
  end.

(** [OuraAuth.get_valid_token]. *)
Definition get_valid_token : method S string :=
  cached ← gets cached_valid;
  match cached with
  | Some cached => mret (access_token cached)
  | None =>
      tokens ← storage_load;
      match tokens with
      | None =>
          raise (ValueError
            "No tokens available. Run 'oura-scraper auth' first.")
      | Some tokens =>
          tokens ←
            (if is_expired (now env) tokens
             then refresh_tokens (Some (refresh_token tokens))
             else mret tokens);
          modify (fun self => set_tokens self (Some tokens));;
          mret (access_token tokens)
      end
  end.

End OuraAuth.

(** ** Interactive authorization *)

Section Interactive.

Context {S : Type} `{!TokenStorageProtocol S}.

Variable env : Env.
Variable token_endpoint : grant -> Response.

(** [urllib.parse.urlencode], the value [secrets.token_urlsafe(32)] draws
    in this run, and the one request the callback server handles before
    [join(timeout=300)] returns: [None] when the five minutes pass
    without one. *)
Variable urlencode : list (string * string) -> string.
Variable token_urlsafe : string.
Variable callback : option (gmap string (string * list string)).

(** [OuraAuth.get_authorization_url]; [scopes or ALL_SCOPES] takes the
    default for [None] and for the empty list. *)
Definition get_authorization_url (redirect_uri : string)
    (scopes : option (list string)) : method S (string * string) :=
  let state := token_urlsafe in
  let scope_str :=
    String.concat " "
      (match scopes with
       | Some (s :: l) => s :: l
       | _ => ALL_SCOPES
       end) in
  id ← gets client_id;
  let params :=
    [("response_type", "code"); ("client_id", id);
     ("redirect_uri", redirect_uri); ("scope", scope_str);
     ("state", state)] in
  mret (AUTHORIZE_URL ++ "?" ++ urlencode params, state).

(** The callback server between [server_thread.start()] and
    [server.server_close()]: the handler runs on the request that
    arrives, if one does. *)
Definition handle_request (self : OuraAuth S) : OuraAuth S :=
  match callback with
  | Some params => set_handler self (fst (do_GET params (handler self)))
  | None => self
  end.

(** [OuraAuth.authorize_interactive]. *)
Definition authorize_interactive (port : Z) (open_browser : bool)
  : method S OAuthTokens :=
  let redirect_uri := "http://localhost:" ++ pretty port ++ "/callback" in
  '(auth_url, expected_state) ← get_authorization_url redirect_uri None;
  modify (fun self => set_handler self (mkHandler None None None));;
  (if open_browser then modify (fun self => add_opened self auth_url)
   else mret tt);;
  modify handle_request;;
  cls ← gets handler;
  if truthy_opt (error cls)
  then
    raise (ValueError ("Authorization failed: " ++ default "" (error cls)))
  else
    match authorization_code cls with
    | None => raise (ValueError "Authorization timed out or failed")
    | Some code =>
        if bool_decide (state cls = Some expected_state)
        then exchange_code env token_endpoint code redirect_uri
        else raise (ValueError "State mismatch - possible CSRF attack")
    end.

End Interactive.

(** ** The scraper ([OuraScraper]) *)

Module Scraper.

(** The endpoints, one per [_scrape_*] method. *)
Inductive endpoint :=
| personal_info | daily_activity | daily_sleep | daily_readiness
| daily_stress | daily_spo2 | sleep | sleep_time | heartrate | workout
| session | enhanced_tag | rest_mode_period.

(** The key under which a method files its outcome in [self.stats]. *)
Definition name (e : endpoint) : string :=
  match e with
  | personal_info => "personal_info"
  | daily_activity => "daily_activity"
  | daily_sleep => "daily_sleep"
  | daily_readiness => "daily_readiness"
  | daily_stress => "daily_stress"
  | daily_spo2 => "daily_spo2"
  | sleep => "sleep"
  | sleep_time => "sleep_time"
  | heartrate => "heartrate"
  | workout => "workout"
  | session => "session"
  | enhanced_tag => "enhanced_tag"
  | rest_mode_period => "rest_mode_period"
  end.

(** The order in which [scrape_all] calls the methods. *)
Definition ENDPOINTS : list endpoint :=
  [personal_info; daily_activity; daily_sleep; daily_readiness;
   daily_stress; daily_spo2; sleep; sleep_time; heartrate; workout;
   session; enhanced_tag; rest_mode_period].

(** An entry of [self.stats]: [{"success": True, "records": n}] or
    [{"success": False, "error": msg}]. *)
Record entry := mkEntry {
  success : bool;
  records : option nat;
  error : option string
}.

Section Run.

(** The surroundings of a run: the state [W] of the vendor API, the
    session manager and the database; the exceptions [E] that derive
    from [Exception], with [str]; opening the connection; the client
    call of an endpoint; and its upsert, which returns the number of
    records. *)
Variables W E data : Type.
Variable str : E -> string.
Variable connect : W -> (E + unit) * W.
Variable get : endpoint -> W -> (E + data) * W.
Variable upsert : endpoint -> data -> W -> (E + nat) * W.

(** The fetch-and-store steps inside the [try] of a [_scrape_*]
    method, and the number it files: [upsert_personal_info] returns
    nothing and the method files 1. *)
Definition fetch_store (e : endpoint) (w : W) : (E + nat) * W :=
  match get e w with
  | (inl ex, w1) => (inl ex, w1)
  | (inr d, w1) =>
      match upsert e d w1 with
      | (inl ex, w2) => (inl ex, w2)
      | (inr count, w2) =>
          (inr (match e with personal_info => 1%nat | _ => count end), w2)
      end
  end.

(** A [_scrape_*] method: [try] the steps, [except Exception] file the
    failure. *)
Definition _scrape (e : endpoint) (self : gmap string entry * W)
  : gmap string entry * W :=
  match fetch_store e (snd self) with
  | (inr count, w) =>
      (<[name e := mkEntry true (Some count) None]> (fst self), w)
  | (inl ex, w) =>
      (<[name e := mkEntry false None (Some (str ex))]> (fst self), w)
  end.

(** The calls in the body of the [with] block, in order. *)
Definition scrape_endpoints (l : list endpoint)
    (self : gmap string entry * W) : gmap string entry * W :=
  foldl (fun self e => _scrape e self) self l.

(** [OuraScraper.scrape_all]: it raises when the connection cannot be
    opened, and returns [self.stats] otherwise. *)
Definition scrape_all (self : gmap string entry * W)
  : (E + gmap string entry) * (gmap string entry * W) :=
  match connect (snd self) with
  | (inl ex, w) => (inl ex, (fst self, w))
  | (inr _, w) =>
      let self' := scrape_endpoints ENDPOINTS (fst self, w) in
      (inr (fst self'), self')
  end.

End Run.

End Scraper.

(** ** The API client ([api_client.OuraAPIClient]) *)

Definition BASE_URL : string := "https://api.ouraring.com/v2/usercollection".

(** A call of [httpx.get]: the URL, the headers, and the query parameters,
    [None] when the call passes none. *)
Record request := mkRequest {
  url : string;
  headers : gmap string string;
  params : option (gmap string string)
}.

(** The client [self]: its session manager with what that acts on, its
    base URL, and the requests sent to the API so far. *)
Record OuraAPIClient (S : Type) := mkClient {
  auth : OuraAuth S;
  base_url : string;
  sent : list request
}.
Arguments mkClient {S}.
Arguments auth {S}.
Arguments base_url {S}.
Arguments sent {S}.

Section APIClient.

Context {S : Type} `{!TokenStorageProtocol S}.

(** The surroundings of a call: configuration and clock, the vendor's
    token endpoint, and the API answering a request with a status and a
    JSON body of type [data]: an object whose [data] member, when present,
    is a list, so that the arguments of the methods' logging calls
    evaluate. *)
Variable env : Env.
Variable token_endpoint : grant -> Response.
Variable data : Type.
Variable api : request -> Z * data.

(** [OuraAPIClient._get_headers]. *)
Definition _get_headers (self : OuraAPIClient S)
  : result (gmap string string) * OuraAPIClient S :=
  match get_valid_token env token_endpoint (auth self) with
  | (inl e, a) => (inl e, mkClient a (base_url self) (sent self))
  | (inr token, a) =>
      (inr {[ "Authorization" := "Bearer " ++ token ]},
       mkClient a (base_url self) (sent self))
  end.

(** The body shared by the [get_*] methods: the URL for [endpoint], the
    headers, which are evaluated before the request is made, the request,
    [raise_for_status], and the JSON body. *)
Definition get_json (endpoint : string)
    (query : option (gmap string string)) (self : OuraAPIClient S)
  : result data * OuraAPIClient S :=
  let url := base_url self ++ "/" ++ endpoint in
  match _get_headers self with
  | (inl e, self1) => (inl e, self1)
  | (inr hdrs, self1) =>
      let req := mkRequest url hdrs query in
      let self2 :=
        mkClient (auth self1) (base_url self1) (sent self1 ++ [req]) in
      let '(status, body) := api req in
      if (200 <=? status)%Z && (status <=? 299)%Z then (inr body, self2)
      else (inl (HTTPStatusError status), self2)
  end.

(** The parameters of a date-ranged call. *)
Definition date_range (start_date end_date : string)
  : option (gmap string string) :=
  Some {[ "start_date" := start_date; "end_date" := end_date ]}.

Definition get_personal_info := get_json "personal_info" None.
Definition get_daily_activity (start_date end_date : string) :=
  get_json "daily_activity" (date_range start_date end_date).
Definition get_daily_sleep (start_date end_date : string) :=
  get_json "daily_sleep" (date_range start_date end_date).
Definition get_daily_readiness (start_date end_date : string) :=
  get_json "daily_readiness" (date_range start_date end_date).
Definition get_daily_stress (start_date end_date : string) :=
  get_json "daily_stress" (date_range start_date end_date).
Definition get_daily_spo2 (start_date end_date : string) :=
  get_json "daily_spo2" (date_range start_date end_date).
Definition get_daily_cardiovascular_age (start_date end_date : string) :=
  get_json "daily_cardiovascular_age" (date_range start_date end_date).
Definition get_daily_resilience (start_date end_date : string) :=
  get_json "daily_resilience" (date_range start_date end_date).
Definition get_sleep (start_date end_date : string) :=
  get_json "sleep" (date_range start_date end_date).
Definition get_sleep_time (start_date end_date : string) :=
  get_json "sleep_time" (date_range start_date end_date).
Definition get_heartrate (start_date end_date : string) :=
  get_json "heartrate" (date_range start_date end_date).
Definition get_vo2_max (start_date end_date : string) :=
  get_json "vO2_max" (date_range start_date end_date).
Definition get_workout (start_date end_date : string) :=
  get_json "workout" (date_range start_date end_date).
Definition get_session (start_date end_date : string) :=
  get_json "session" (date_range start_date end_date).
Definition get_enhanced_tag (start_date end_date : string) :=
  get_json "enhanced_tag" (date_range start_date end_date).
Definition get_ring_configuration := get_json "ring_configuration" None.
Definition get_rest_mode_period (start_date end_date : string) :=
  get_json "rest_mode_period" (date_range start_date end_date).

(** The client call each [_scrape_*] method of the scraper makes, with the
    scraper's [start_date] and [end_date]. *)
Definition client_call (start_date end_date : string) (e : Scraper.endpoint)
  : OuraAPIClient S -> result data * OuraAPIClient S :=
  match e with
  | Scraper.personal_info => get_personal_info
  | Scraper.daily_activity => get_daily_activity start_date end_date
  | Scraper.daily_sleep => get_daily_sleep start_date end_date
  | Scraper.daily_readiness => get_daily_readiness start_date end_date
  | Scraper.daily_stress => get_daily_stress start_date end_date
  | Scraper.daily_spo2 => get_daily_spo2 start_date end_date
  | Scraper.sleep => get_sleep start_date end_date
  | Scraper.sleep_time => get_sleep_time start_date end_date
  | Scraper.heartrate => get_heartrate start_date end_date
  | Scraper.workout => get_workout start_date end_date
  | Scraper.session => get_session start_date end_date
  | Scraper.enhanced_tag => get_enhanced_tag start_date end_date
  | Scraper.rest_mode_period => get_rest_mode_period start_date end_date
  end.

(** The scraper's world: its client and the database [D] behind its
    connection.  A client call acts on the client only. *)
Definition scraper_get (D : Type) (start_date end_date : string)
    (e : Scraper.endpoint) (w : OuraAPIClient S * D)
  : (exn + data) * (OuraAPIClient S * D) :=
  let '(r, c) := client_call start_date end_date e (fst w) in
  (r, (c, snd w)).

End APIClient.

(** [str(e)] for the exceptions of the model; the text of an
    [HTTPStatusError], which httpx composes from the status and the URL, is
    given by [http_message]. *)
Definition str_exn (http_message : Z -> string) (e : exn) : string :=
  match e with
  | ValueError msg => msg
  | KeyError key => "'" ++ key ++ "'"
  | TypeError msg => msg
  | JSONDecodeError msg => msg
  | HTTPStatusError status => http_message status
  | PsycopgError msg => msg
  end.

(** ** Database operations ([db/operations.py])

    The two upserts whose statements pass the record as it is.  A record
    is taken with the values the columns hold once the database has
    accepted it (an instant for [TIMESTAMP WITH TIME ZONE], a day number
    for [DATE]), and every statement succeeds. *)

(** The connection [conn] on one table: the table as the open transaction
    sees it, and the table as committed. *)
Record Connection (T : Type) := mkConnection {
  current : T;
  committed : T
}.
Arguments mkConnection {T}.
Arguments current {T}.
Arguments committed {T}.

Section Upsert.

(** A table with conflict target [key]: [INSERT ... VALUES] adds the row
    [inserted record]; [ON CONFLICT (key) DO UPDATE SET ...] turns the
    existing row [old] into [updated old record]. *)
Context {K : Type} `{Countable K} {Rec Row : Type}.
Variable key : Rec -> K.
Variable inserted : Rec -> Row.
Variable updated : Row -> Rec -> Row.

(** [cur.execute(sql, record)]. *)
Definition execute (table : gmap K Row) (record : Rec) : gmap K Row :=
  match table !! key record with
  | Some old => <[key record := updated old record]> table
  | None => <[key record := inserted record]> table
  end.

(** What one statement does to the row under the record's key. *)
Definition row_after (o : option Row) (record : Rec) : option Row :=
  Some (match o with
        | Some old => updated old record
        | None => inserted record
        end).

(** The body shared by the upserts: nothing on an empty batch, else one
    statement per record, a commit, and the length of the batch. *)
Definition upsert (records : list Rec) (conn : Connection (gmap K Row))
  : nat * Connection (gmap K Row) :=
  match records with
  | [] => (0%nat, conn)
  | _ =>
      let table := foldl execute (current conn) records in
      (length records, mkConnection table table)
  end.

End Upsert.

(** A record of the heart-rate endpoint, and a row of [oura_heart_rate]
    under its primary key [timestamp]. *)
Record heart_rate_record := mkHeartRate {
  hr_timestamp : datetime;
  hr_bpm : Z;
  hr_source : string
}.

Record heart_rate_row := mkHeartRateRow {
  row_bpm : Z;
  row_source : string
}.

(** [upsert_heart_rate]: on conflict [bpm] and [source] are replaced. *)
Definition upsert_heart_rate
  : list heart_rate_record -> Connection (gmap Z heart_rate_row) ->
    nat * Connection (gmap Z heart_rate_row) :=
  upsert hr_timestamp
    (fun record => mkHeartRateRow (hr_bpm record) (hr_source record))
    (fun old record => mkHeartRateRow (hr_bpm record) (hr_source record)).

(** A record of the daily-stress endpoint, and a row of
    [oura_daily_stress] under its primary key [id]. *)
Record daily_stress_record := mkDailyStress {
  ds_id : string;
  ds_day : Z;
  ds_stress_high : option Z;
  ds_recovery_high : option Z;
  ds_day_summary : option string
}.

Record daily_stress_row := mkDailyStressRow {
  row_day : Z;
  row_stress_high : option Z;
  row_recovery_high : option Z;
  row_day_summary : option string
}.

(** [upsert_daily_stress]: on conflict [stress_high], [recovery_high] and
    [day_summary] are replaced; [day] is not in the [SET] list. *)
Definition upsert_daily_stress
  : list daily_stress_record -> Connection (gmap string daily_stress_row) ->
    nat * Connection (gmap string daily_stress_row) :=
  upsert ds_id
    (fun record =>
       mkDailyStressRow (ds_day record) (ds_stress_high record)
         (ds_recovery_high record) (ds_day_summary record))
    (fun old record =>
       mkDailyStressRow (row_day old) (ds_stress_high record)
         (ds_recovery_high record) (ds_day_summary record)).

(** * Definitions used in the statements *)

(** The environment supplies a pair when both values are non-empty. *)
Definition env_supplied (env : Env) : Prop :=
  settings_access_token (settings env) <> ""
  /\ settings_refresh_token (settings env) <> "".

(** The pair the [load] methods synthesize from the environment. *)
Definition env_tokens (env : Env) : OAuthTokens :=
  mkOAuthTokens (settings_access_token (settings env))
                (settings_refresh_token (settings env))
                (now env + days 365) "bearer".

(** The pair a database row is read back as. *)
Definition row_tokens (row : oauth_tokens_row) : OAuthTokens :=
  mkOAuthTokens (row_access_token row) (row_refresh_token row)
                (row_expires_at row) (or_else (row_token_type row) "bearer").

(** The three pages [do_GET] serves. *)
Definition success_page : Reply :=
  _send_response "Authorization successful! You can close this window." 200.
Definition denial_page : Reply :=
  _send_response "Authorization denied. You can close this window." 200.
Definition malformed_page : Reply :=
  _send_response "Invalid callback. Missing code parameter." 400.

(** A redirect that carries [error] together with [code] and [state]. *)
Definition denied_with_code : gmap string (string * list string) :=
  {[ "error" := ("access_denied", []);
     "code" := ("abc", []);
     "state" := ("xyz", []) ]}.

(** A redirect that carries [code] and [state] only. *)
Definition granted : gmap string (string * list string) :=
  {[ "code" := ("abc", []); "state" := ("xyz", []) ]}.

Section GrantTail.

Context {S : Type} `{!TokenStorageProtocol S}.
Variable env : Env.
Variable token_endpoint : grant -> Response.

(** What [exchange_code] and [refresh_tokens] do once the form [g] is
    built: post it, check the status, build the pair, save it, cache
    it. *)
Definition complete_grant (g : grant) (self : OuraAuth S)
  : result OAuthTokens * OuraAuth S :=
  let self1 := add_posted self g in
  if is_success (token_endpoint g) then
    match from_token_response env (response_json (token_endpoint g)) with
    | inl e => (inl e, self1)
    | inr p =>
        match save p (storage self) with
        | (inl e, s) => (inl e, set_storage self1 s)
        | (inr _, s) => (inr p, set_tokens (set_storage self1 s) (Some p))
        end
    end
  else (inl (HTTPStatusError (status_code (token_endpoint g))), self1).

End GrantTail.

Section BeforeChecks.

Context {S : Type}.
Variable urlencode : list (string * string) -> string.
Variable token_urlsafe : string.
Variable callback : option (gmap string (string * list string)).

(** The state in which [authorize_interactive] inspects the handler:
    attributes reset, browser opened if asked, request handled if one
    arrived. *)
Definition after_callback (port : Z) (open_browser : bool)
    (self : OuraAuth S) : OuraAuth S :=
  let redirect_uri := "http://localhost:" ++ pretty port ++ "/callback" in
  let auth_url :=
    AUTHORIZE_URL ++ "?"
    ++ urlencode
         [("response_type", "code"); ("client_id", client_id self);
          ("redirect_uri", redirect_uri);
          ("scope", String.concat " " ALL_SCOPES);
          ("state", token_urlsafe)] in
  let self1 := set_handler self (mkHandler None None None) in
  let self2 := if open_browser then add_opened self1 auth_url else self1 in
  handle_request callback self2.

End BeforeChecks.

(** The call raised [ValueError] without posting to the token endpoint,
    and left the store and the cache as they were. *)
Definition aborted {S : Type} (r : result OAuthTokens * OuraAuth S)
    (self : OuraAuth S) : Prop :=
  (exists msg, fst r = inl (ValueError msg))
  /\ posted (snd r) = posted self
  /\ storage (snd r) = storage self
  /\ _tokens (snd r) = _tokens self.

Arguments Scraper.fetch_store {W E data} get upsert e w.
Arguments Scraper._scrape {W E data} str get upsert e self.
Arguments Scraper.scrape_endpoints {W E data} str get upsert l self.
Arguments Scraper.scrape_all {W E data} str connect get upsert self.

(** The entry a [_scrape_*] method files for the outcome of its steps. *)
Definition outcome_entry {E : Type} (str : E -> string) (r : E + nat)
  : Scraper.entry :=
  match r with
  | inr count => Scraper.mkEntry true (Some count) None
  | inl ex => Scraper.mkEntry false None (Some (str ex))
  end.

(** A concrete instance of the library functions the file backend calls,
    defined on the few texts the examples below use, on which the model is
    run. *)
Module Sample.

Definition dq : string := String "034"%char EmptyString.

Definition pair : OAuthTokens :=
  mkOAuthTokens "access-1" "refresh-1" 1751371200000000 "bearer".

Definition isoformat (d : datetime) : string :=
  if (d =? 1751371200000000)%Z then "2025-07-01T12:00:00+00:00"
  else "1970-01-01T00:00:00+00:00".

Definition fromisoformat (s : string) : result datetime :=
  if String.eqb s "2025-07-01T12:00:00+00:00" then inr 1751371200000000
  else if String.eqb s "1970-01-01T00:00:00+00:00" then inr 0
  else inl (ValueError ("Invalid isoformat string: " ++ s)).

Definition member_text (key value : string) : string :=
  dq ++ key ++ dq ++ ": " ++ dq ++ value ++ dq.

(** The text of a token file holding [pair]. *)
Definition pair_text : string :=
  "{" ++ member_text "access_token" "access-1" ++ ", "
      ++ member_text "refresh_token" "refresh-1" ++ ", "
      ++ member_text "expires_at" "2025-07-01T12:00:00+00:00" ++ ", "
      ++ member_text "token_type" "bearer" ++ "}".

(** The text of a token file whose [expires_at] is not a date. *)
Definition bad_date_text : string :=
  "{" ++ member_text "access_token" "access-1" ++ ", "
      ++ member_text "refresh_token" "refresh-1" ++ ", "
      ++ member_text "expires_at" "tomorrow" ++ "}".

Definition json_dumps (d : gmap string string) : string := pair_text.

Definition json_loads (s : string) : result json :=
  if String.eqb s pair_text then inr (JObject (to_dict isoformat pair))
  else if String.eqb s bad_date_text then
    inr (JObject {[ "access_token" := "access-1";
                    "refresh_token" := "refresh-1";
                    "expires_at" := "tomorrow" ]})
  else if String.eqb s "[]" then inr JNotObject
  else inl (JSONDecodeError "Expecting value").

(** No token pair in the environment; the clock at 2025-07-01 11:00 UTC. *)
Definition env : Env :=
  mkEnv (mkSettings "client" "secret" "" "") 1751367600000000.

(** Both tokens in the environment. *)
Definition env_override : Env :=
  mkEnv (mkSettings "client" "secret" "env-access" "env-refresh")
        1751367600000000.

Definition db : Database :=
  mkDatabase true (Some (mkRow "access-1" "refresh-1" 1751371200000000
                               (Some "bearer"))).


Definition stale_db : Database :=
  mkDatabase true (Some (mkRow "access-0" "refresh-0" 1751364000000000
                               (Some "bearer"))).

(** A token endpoint that honours the refresh token [refresh-0] and the
    code [code-1] with a pair valid for a day, and rejects the rest. *)
Definition vendor (g : grant) : Response :=
  match g with
  | refresh_token_grant token _ _ =>
      if String.eqb token "refresh-0"
      then mkResponse 200
             (mkTokenResponse (Some "access-1") (Some "refresh-1")
                              (Some 86400) (Some "bearer"))
      else mkResponse 401 (mkTokenResponse None None None None)
  | authorization_code_grant code _ _ _ =>
      if String.eqb code "code-1"
      then mkResponse 200
             (mkTokenResponse (Some "access-1") (Some "refresh-1")
                              (Some 86400) (Some "bearer"))
      else mkResponse 400 (mkTokenResponse None None None None)
  end.

(** A token endpoint that rejects every grant. *)
Definition rejecting_vendor (g : grant) : Response :=
  mkResponse 401 (mkTokenResponse None None None None).

(** A token endpoint that issues pairs valid for one minute. *)
Definition short_lived_vendor (g : grant) : Response :=
  mkResponse 200
    (mkTokenResponse (Some "access-1") (Some "refresh-1") (Some 60)
                     (Some "bearer")).

(** A session manager just constructed over the database [d]. *)
Definition auth (d : Database) : OuraAuth Database :=
  mkOuraAuth "client" "secret" d None [] [] (mkHandler None None None).

(** The pair [vendor] issues at the clock of [env]. *)
Definition fresh_pair : OAuthTokens :=
  mkOAuthTokens "access-1" "refresh-1" (1751367600000000 + 86400000000)
                "bearer".

End Sample.

(** A run for the examples: the world is the list of endpoints attempted
    so far, every client call returns three records, except that of
    [daily_activity], which fails. *)
Module SampleRun.

Definition connect (w : list string) : (string + unit) * list string :=
  (inr tt, w).

Definition get (e : Scraper.endpoint) (w : list string)
  : (string + nat) * list string :=
  match e with
  | Scraper.daily_activity =>
      (inl "Server error '500 Internal Server Error'",
       (w ++ [Scraper.name e])%list)
  | _ => (inr 3%nat, (w ++ [Scraper.name e])%list)
  end.

Definition upsert (e : Scraper.endpoint) (d : nat) (w : list string)
  : (string + nat) * list string :=
  (inr d, w).

End SampleRun.

(** * Properties *)

(** ** Expiry policy *)

(** C3: a token pair is expired at [now] exactly when
    [now >= expires_at - 5 min]; it is expired at the boundary
    [now = expires_at - 5 min] and one microsecond after it, and not
    expired one microsecond before it. *)
Theorem is_expired_iff_buffer (now : datetime) (T : OAuthTokens) :
  (is_expired now T = true <-> now >= expires_at T - minutes 5)
  /\ is_expired (expires_at T - minutes 5) T = true
  /\ is_expired (expires_at T - minutes 5 + microseconds 1) T = true
  /\ is_expired (expires_at T - minutes 5 - microseconds 1) T = false.
Proof.
  unfold is_expired, microseconds.
  repeat split.
  - intros H. apply Z.geb_le in H. lia.
  - intros H. apply Z.geb_le. lia.
  - apply Z.geb_le. lia.
  - apply Z.geb_le. lia.
  - destruct (Z.geb_spec (expires_at T - minutes 5 - 1) (expires_at T - minutes 5));
      [lia | reflexivity].
Qed.

(** ** Token stores: load precedence, round trip, corrupt files *)

Lemma truthy_spec (s : string) : truthy s = true <-> s <> "".
Proof.
  unfold truthy. destruct (String.eqb_spec s ""); simpl; split; congruence.
Qed.

Lemma env_guard_true (env : Env) :
  env_supplied env ->
  truthy (settings_access_token (settings env))
  && truthy (settings_refresh_token (settings env)) = true.
Proof.
  intros [Ha Hr]. apply truthy_spec in Ha, Hr. by rewrite Ha, Hr.
Qed.

Lemma env_guard_false (env : Env) :
  ~ env_supplied env ->
  truthy (settings_access_token (settings env))
  && truthy (settings_refresh_token (settings env)) = false.
Proof.
  intros Hn. apply not_true_is_false. intros H.
  apply andb_true_iff in H as [Ha Hr]. apply Hn.
  split; by apply truthy_spec.
Qed.

Section FileFacts.

Variable json_dumps : gmap string string -> string.
Variable json_loads : string -> result json.
Variable isoformat : datetime -> string.
Variable fromisoformat : string -> result datetime.

(** [from_dict] undoes [to_dict] wherever [fromisoformat] undoes
    [isoformat]. *)
Lemma from_dict_to_dict (T : OAuthTokens) :
  fromisoformat (isoformat (expires_at T)) = inr (expires_at T) ->
  from_dict fromisoformat (JObject (to_dict isoformat T)) = inr T.
Proof.
  intros Hiso. unfold from_dict, getitem, get_default.
  assert (H1 : to_dict isoformat T !! "access_token" = Some (access_token T))
    by (unfold to_dict; by simplify_map_eq).
  assert (H2 : to_dict isoformat T !! "refresh_token"
               = Some (refresh_token T))
    by (unfold to_dict; by simplify_map_eq).
  assert (H3 : to_dict isoformat T !! "expires_at"
               = Some (isoformat (expires_at T)))
    by (unfold to_dict; by simplify_map_eq).
  assert (H4 : to_dict isoformat T !! "token_type" = Some (token_type T))
    by (unfold to_dict; by simplify_map_eq).
  rewrite H1, H2, H3, H4. cbn. rewrite Hiso. cbn. by destruct T.
Qed.

(** Without a pair from the environment, a token file that parses to a
    pair is loaded as that pair. *)
Lemma file_load_parsed (env : Env) (f : file) (T : OAuthTokens) :
  ~ env_supplied env ->
  (data ← json_loads (content f); from_dict fromisoformat data) = inr T ->
  file_load json_loads fromisoformat env (Some f) = inr (Some T).
Proof.
  intros Hn Hp. unfold file_load. rewrite env_guard_false by done.
  by rewrite Hp.
Qed.

(** What the [except] clause catches: text that is not JSON, and an
    object that lacks a required member. *)
Lemma file_load_caught (env : Env) (f : file) :
  ~ env_supplied env ->
  (exists msg, json_loads (content f) = inl (JSONDecodeError msg))
  \/ (exists d key, json_loads (content f) = inr (JObject d)
        /\ key ∈ ["access_token"; "refresh_token"; "expires_at"]
        /\ d !! key = None
        /\ (d !! "expires_at" = None
            \/ exists e dt, d !! "expires_at" = Some e
                            /\ fromisoformat e = inr dt)) ->
  file_load json_loads fromisoformat env (Some f) = inr None.
Proof.
  intros Hn H. unfold file_load. rewrite env_guard_false by done.
  destruct H as [[msg ->] | (d & key & -> & Hk & Hnone & He)]; [done |].
  simpl. unfold from_dict, getitem.
  destruct (d !! "access_token") as [a|] eqn:Ea; [simpl | done].
  destruct (d !! "refresh_token") as [r|] eqn:Er; [simpl | done].
  destruct He as [-> | (e & dt & He & Hdt)]; [done |].
  repeat (apply elem_of_cons in Hk as [-> | Hk]; [congruence |]).
  by apply elem_of_nil in Hk.
Qed.

End FileFacts.

(** C4: with both tokens in the environment, [load] of either backend
    returns the pair made of them, with expiry one year (365 days) after
    now, whatever the backend holds.  Otherwise [load] reads the backend:
    the file backend returns nothing when the file is absent and the pair
    the file parses to when it does; the database backend returns the row
    as a pair, and nothing when there is no row or no connection. *)
Theorem load_precedence
    (json_loads : string -> result json)
    (fromisoformat : string -> result datetime) (env : Env) :
  (env_supplied env ->
     (forall fs, file_load json_loads fromisoformat env fs
                 = inr (Some (env_tokens env)))
     /\ (forall db, db_load env db = inr (Some (env_tokens env)))
     /\ expires_at (env_tokens env) = now env + 365 * 86400 * 1000000)
  /\ (~ env_supplied env ->
        file_load json_loads fromisoformat env None = inr None
        /\ (forall f T,
              (data ← json_loads (content f); from_dict fromisoformat data)
              = inr T ->
              file_load json_loads fromisoformat env (Some f) = inr (Some T))
        /\ (forall row,
              db_load env (mkDatabase true (Some row))
              = inr (Some (row_tokens row)))
        /\ db_load env (mkDatabase true None) = inr None
        /\ (forall rows, db_load env (mkDatabase false rows) = inr None)).
Proof.
  split.
  - intros Hs. repeat split.
    + intros fs. unfold file_load. by rewrite env_guard_true.
    + intros db. unfold db_load. by rewrite env_guard_true.
  - intros Hn. repeat split.
    + unfold file_load. by rewrite env_guard_false.
    + intros f T Hp. by apply file_load_parsed.
    + intros row. unfold db_load. by rewrite env_guard_false.
    + unfold db_load. by rewrite env_guard_false.
    + intros rows. unfold db_load. by rewrite env_guard_false.
Qed.

(** The environment's pair wins over a different, valid pair in the file
    and in the database; without it the stored pair is returned. *)
Lemma load_precedence_witness :
  file_load Sample.json_loads Sample.fromisoformat Sample.env_override
            (Some (mkFile Sample.pair_text 384))
  = inr (Some (mkOAuthTokens "env-access" "env-refresh"
                 (1751367600000000 + 31536000000000) "bearer"))
  /\ db_load Sample.env_override Sample.db
     = inr (Some (mkOAuthTokens "env-access" "env-refresh"
                    (1751367600000000 + 31536000000000) "bearer"))
  /\ file_load Sample.json_loads Sample.fromisoformat Sample.env
               (Some (mkFile Sample.pair_text 384))
     = inr (Some Sample.pair)
  /\ db_load Sample.env Sample.db = inr (Some Sample.pair).
Proof.
  destruct (load_precedence Sample.json_loads Sample.fromisoformat
              Sample.env_override) as [Hyes _].
  destruct (load_precedence Sample.json_loads Sample.fromisoformat
              Sample.env) as [_ Hno].
  destruct Hyes as (Hf & Hd & _); [split; discriminate |].
  destruct Hno as (_ & Hf' & Hd' & _); [intros [H _]; by apply H |].
  split; [apply Hf | split; [apply Hd | split]].
  - apply Hf'. reflexivity.
  - apply (Hd' (mkRow "access-1" "refresh-1" 1751371200000000 (Some "bearer"))).
Defined.

(** C7: [TokenStorage.load] does not turn every corrupt token file into
    "no tokens".  A file whose JSON value is not an object makes it raise
    [TypeError], and a file whose [expires_at] member is not a date makes
    it raise the [ValueError] of [fromisoformat]: the [except] clause
    names [json.JSONDecodeError] and [KeyError] only. *)
Theorem file_load_corrupt_raises
    (json_loads : string -> result json)
    (fromisoformat : string -> result datetime) (env : Env) (f : file) :
  ~ env_supplied env ->
  (json_loads (content f) = inr JNotObject ->
     file_load json_loads fromisoformat env (Some f)
     = inl (TypeError "indices must be integers"))
  /\ (forall d a r e msg,
        json_loads (content f) = inr (JObject d) ->
        d !! "access_token" = Some a ->
        d !! "refresh_token" = Some r ->
        d !! "expires_at" = Some e ->
        fromisoformat e = inl (ValueError msg) ->
        file_load json_loads fromisoformat env (Some f)
        = inl (ValueError msg)).
Proof.
  intros Hn. unfold file_load. rewrite env_guard_false by done. split.
  - intros ->. reflexivity.
  - intros d a r e msg -> Ha Hr He Hiso.
    cbn. unfold from_dict, getitem. rewrite Ha, Hr, He. cbn.
    rewrite Hiso. reflexivity.
Qed.

(** The token file
    [{"access_token": "access-1", "refresh_token": "refresh-1",
      "expires_at": "tomorrow"}] and the token file [[]] make [load]
    raise. *)
Lemma file_load_corrupt_raises_witness :
  file_load Sample.json_loads Sample.fromisoformat Sample.env
            (Some (mkFile Sample.bad_date_text 384))
  = inl (ValueError "Invalid isoformat string: tomorrow")
  /\ file_load Sample.json_loads Sample.fromisoformat Sample.env
               (Some (mkFile "[]" 384))
     = inl (TypeError "indices must be integers").
Proof.
  assert (Hn : ~ env_supplied Sample.env) by (intros [H _]; by apply H).
  split.
  - apply (proj2 (file_load_corrupt_raises Sample.json_loads
                    Sample.fromisoformat Sample.env
                    (mkFile Sample.bad_date_text 384) Hn)
             {[ "access_token" := "access-1"; "refresh_token" := "refresh-1";
                "expires_at" := "tomorrow" ]}
             "access-1" "refresh-1" "tomorrow");
      reflexivity.
  - apply (proj1 (file_load_corrupt_raises Sample.json_loads
                    Sample.fromisoformat Sample.env (mkFile "[]" 384) Hn)).
    reflexivity.
Defined.

(** Stated for every token pair, the round trip fails on the database
    backend: a pair whose [token_type] is the empty string is read back
    with [token_type = "bearer"]. *)
Lemma db_load_after_save_empty_token_type :
  fst (db_save (mkOAuthTokens "access-1" "refresh-1" 1751371200000000 "")
               (mkDatabase true None)) = inr tt
  /\ db_load Sample.env
       (snd (db_save (mkOAuthTokens "access-1" "refresh-1" 1751371200000000 "")
                     (mkDatabase true None)))
     = inr (Some (mkOAuthTokens "access-1" "refresh-1" 1751371200000000
                                "bearer"))
  /\ db_load Sample.env
       (snd (db_save (mkOAuthTokens "access-1" "refresh-1" 1751371200000000 "")
                     (mkDatabase true None)))
     <> inr (Some (mkOAuthTokens "access-1" "refresh-1" 1751371200000000 "")).
Proof.
  split; [reflexivity | split; [reflexivity | discriminate]].
Qed.

(** C8 (amended): without a token pair in the environment, [load] after
    [save] returns the saved pair with all four fields and the expiry to
    the microsecond, on the file backend for every pair (given that
    [json.loads] undoes [json.dumps] on the saved dictionary and
    [fromisoformat] undoes [isoformat] on the expiry), and on the database
    backend for every pair whose [token_type] is not empty. *)
Theorem load_after_save
    (json_dumps : gmap string string -> string)
    (json_loads : string -> result json)
    (isoformat : datetime -> string)
    (fromisoformat : string -> result datetime)
    (env : Env) (T : OAuthTokens) :
  ~ env_supplied env ->
  (json_loads (json_dumps (to_dict isoformat T))
   = inr (JObject (to_dict isoformat T)) ->
   fromisoformat (isoformat (expires_at T)) = inr (expires_at T) ->
   forall fs,
     fst (file_save json_dumps isoformat T fs) = inr tt
     /\ file_load json_loads fromisoformat env
          (snd (file_save json_dumps isoformat T fs)) = inr (Some T))
  /\ (token_type T <> "" ->
      forall db, reachable db = true ->
        fst (db_save T db) = inr tt
        /\ db_load env (snd (db_save T db)) = inr (Some T)).
Proof.
  intros Hn. split.
  - intros Hjson Hiso fs. split; [reflexivity |].
    apply file_load_parsed; [done |]. cbn. rewrite Hjson. cbn.
    by apply from_dict_to_dict.
  - intros Htt db Hr. unfold db_save. rewrite Hr. split; [reflexivity |].
    cbn. unfold db_load. rewrite env_guard_false by done. cbn.
    apply truthy_spec in Htt. rewrite Htt. by destruct T.
Qed.

Lemma load_after_save_witness :
  file_load Sample.json_loads Sample.fromisoformat Sample.env
    (snd (file_save Sample.json_dumps Sample.isoformat Sample.pair None))
  = inr (Some Sample.pair)
  /\ db_load Sample.env (snd (db_save Sample.pair (mkDatabase true None)))
     = inr (Some Sample.pair).
Proof.
  assert (Hn : ~ env_supplied Sample.env) by (intros [H _]; by apply H).
  destruct (load_after_save Sample.json_dumps Sample.json_loads
              Sample.isoformat Sample.fromisoformat Sample.env Sample.pair Hn)
    as [Hfile Hdb].
  split.
  - apply (Hfile eq_refl eq_refl None).
  - apply (Hdb ltac:(discriminate) (mkDatabase true None) eq_refl).
Defined.

(** ** The callback handler *)

(** Stated without regard to [error], the success outcome fails: on a
    request that carries [code], [state] and [error], the handler serves
    the denial page and captures neither [code] nor [state]. *)
Lemma do_GET_error_precedes_code :
  is_Some (denied_with_code !! "code")
  /\ is_Some (denied_with_code !! "state")
  /\ do_GET denied_with_code (mkHandler None None None)
     = (mkHandler None None (Some "access_denied"), denial_page)
  /\ denial_page <> success_page.
Proof.
  split; [by eexists | split; [by eexists | split; [reflexivity |]]].
  discriminate.
Qed.

(** C9 (amended): every request gets exactly one of three outcomes.
    Denial, when [error] is present: the error is captured and the denial
    page served.  Success, when [error] is absent and [code] and [state]
    are present: both are captured and the success page served.
    Malformed, when [code] and [error] are absent: status 400, a client
    error, and nothing is captured. *)
Theorem do_GET_outcomes (params : gmap string (string * list string))
    (cls : OAuthCallbackHandler) :
  (forall e, params !! "error" = Some e ->
     do_GET params cls
     = (mkHandler (authorization_code cls) (state cls) (Some (fst e)),
        denial_page))
  /\ (forall c s, params !! "error" = None ->
        params !! "code" = Some c -> params !! "state" = Some s ->
        do_GET params cls
        = (mkHandler (Some (fst c)) (Some (fst s)) (error cls), success_page))
  /\ (params !! "error" = None -> params !! "code" = None ->
        do_GET params cls = (cls, malformed_page)
        /\ 400 <= reply_status malformed_page < 500)
  /\ (snd (do_GET params cls) = success_page
      \/ snd (do_GET params cls) = denial_page
      \/ snd (do_GET params cls) = malformed_page)
  /\ success_page <> denial_page
  /\ success_page <> malformed_page
  /\ denial_page <> malformed_page.
Proof.
  unfold do_GET. repeat apply conj; try discriminate.
  - intros e ->. reflexivity.
  - intros c s -> -> ->. reflexivity.
  - intros -> ->. split; [reflexivity | cbn; lia].
  - destruct (params !! "error"); [by right; left |].
    destruct (params !! "code"); [by left | by right; right].
Qed.

Lemma do_GET_outcomes_witness :
  do_GET granted (mkHandler None None None)
  = (mkHandler (Some "abc") (Some "xyz") None, success_page)
  /\ do_GET denied_with_code (mkHandler None None None)
     = (mkHandler None None (Some "access_denied"), denial_page)
  /\ do_GET ∅ (mkHandler None None None)
     = (mkHandler None None None, malformed_page).
Proof.
  split; [| split].
  - apply (proj1 (proj2 (do_GET_outcomes granted (mkHandler None None None)))
             ("abc", []) ("xyz", [])); reflexivity.
  - apply (proj1 (do_GET_outcomes denied_with_code (mkHandler None None None))
             ("access_denied", [])); reflexivity.
  - apply (proj1 (proj2 (proj2 (do_GET_outcomes ∅ (mkHandler None None None)))));
      reflexivity.
Defined.

(** ** The session manager: grants, refresh and valid tokens *)

(** Unfolds the sequencing of a method body, so that the body runs on the
    state it is applied to. *)
Ltac run_method :=
  unfold mbind, method_bind, mret, method_ret, gets, modify, lift, raise,
    raise_for_status, httpx_post, storage_load, storage_save;
  cbn.

Section Grants.

Context {S : Type} `{!TokenStorageProtocol S}.
Variable env : Env.
Variable token_endpoint : grant -> Response.

Lemma exchange_code_unfold (code redirect_uri : string) (self : OuraAuth S) :
  exchange_code env token_endpoint code redirect_uri self
  = complete_grant env token_endpoint
      (authorization_code_grant code redirect_uri
         (client_id self) (client_secret self)) self.
Proof.
  unfold exchange_code, complete_grant. run_method.
  destruct (is_success _); cbn; [| reflexivity].
  destruct (from_token_response _ _); cbn; [reflexivity |].
  destruct (save _ _) as [[e | []] s]; reflexivity.
Qed.

Lemma refresh_tokens_supplied (token : string) (self : OuraAuth S) :
  refresh_tokens env token_endpoint (Some token) self
  = complete_grant env token_endpoint
      (refresh_token_grant token (client_id self) (client_secret self)) self.
Proof.
  unfold refresh_tokens, complete_grant. run_method.
  destruct (is_success _); cbn; [| reflexivity].
  destruct (from_token_response _ _); cbn; [reflexivity |].
  destruct (save _ _) as [[e | []] s]; reflexivity.
Qed.

Lemma refresh_tokens_stored (self : OuraAuth S) :
  refresh_tokens env token_endpoint None self
  = match load env (storage self) with
    | inl e => (inl e, self)
    | inr None =>
        (inl (ValueError "No stored tokens and no refresh_token provided"),
         self)
    | inr (Some tokens) =>
        complete_grant env token_endpoint
          (refresh_token_grant (refresh_token tokens)
             (client_id self) (client_secret self)) self
    end.
Proof.
  destruct (load env (storage self)) as [e | [tokens |]] eqn:Hload.
  - unfold refresh_tokens. run_method. by rewrite Hload.
  - rewrite <- refresh_tokens_supplied.
    unfold refresh_tokens. run_method. by rewrite Hload.
  - unfold refresh_tokens. run_method. by rewrite Hload.
Qed.

(** Every completed grant posts exactly its form. *)
Lemma complete_grant_posted (g : grant) (self : OuraAuth S) :
  posted (snd (complete_grant env token_endpoint g self))
  = (posted self ++ [g])%list.
Proof.
  unfold complete_grant.
  destruct (is_success _); [| reflexivity].
  destruct (from_token_response _ _); [reflexivity |].
  destruct (save _ _) as [[e | u] s]; reflexivity.
Qed.

(** A grant that succeeds returns the pair built from the vendor's
    response, has saved that pair, and has cached it. *)
Lemma complete_grant_success (g : grant) (self self' : OuraAuth S)
    (p : OAuthTokens) :
  complete_grant env token_endpoint g self = (inr p, self') ->
  is_success (token_endpoint g) = true
  /\ from_token_response env (response_json (token_endpoint g)) = inr p
  /\ save p (storage self) = (inr tt, storage self')
  /\ _tokens self' = Some p
  /\ client_id self' = client_id self
  /\ client_secret self' = client_secret self.
Proof.
  unfold complete_grant.
  destruct (is_success _); [| discriminate].
  destruct (from_token_response _ _) as [e | q]; [discriminate |].
  destruct (save q (storage self)) as [[e | []] s] eqn:Hsave;
    [discriminate |].
  intros [= <- <-]. by rewrite Hsave.
Qed.

(** A grant that fails leaves the cache as it was. *)
Lemma complete_grant_failure (g : grant) (self self' : OuraAuth S)
    (e : exn) :
  complete_grant env token_endpoint g self = (inl e, self') ->
  _tokens self' = _tokens self.
Proof.
  unfold complete_grant.
  destruct (is_success _); [| by intros [= _ <-]].
  destruct (from_token_response _ _) as [e' | q]; [by intros [= _ <-] |].
  destruct (save q (storage self)) as [[e' | []] s]; [| discriminate].
  by intros [= _ <-].
Qed.

(** The pair built from a response expires [expires_in] seconds from
    now, a day when the response does not say. *)
Lemma from_token_response_expiry (response : token_response)
    (p : OAuthTokens) :
  from_token_response env response = inr p ->
  expires_at p
  = now env + seconds (default 86400 (response_expires_in response))
  /\ response_access_token response = Some (access_token p)
  /\ response_refresh_token response = Some (refresh_token p)
  /\ token_type p = default "bearer" (response_token_type response).
Proof.
  unfold from_token_response, member.
  destruct (response_access_token response); [| discriminate].
  destruct (response_refresh_token response); [| discriminate].
  cbn. by intros [= <-].
Qed.

End Grants.

(** C10: when [exchange_code] or [refresh_tokens] returns a pair, that
    pair is the one in the cache afterwards, whatever the cache held
    before, and the one [save] was called with: the backend's state
    afterwards is what [save] of that pair left. *)
Theorem grant_result_cached_and_saved
    {S : Type} `{!TokenStorageProtocol S}
    (env : Env) (token_endpoint : grant -> Response)
    (self self' : OuraAuth S) (p : OAuthTokens) :
  (forall code redirect_uri,
     exchange_code env token_endpoint code redirect_uri self = (inr p, self') ->
     _tokens self' = Some p
     /\ save p (storage self) = (inr tt, storage self'))
  /\ (forall supplied,
        refresh_tokens env token_endpoint supplied self = (inr p, self') ->
        _tokens self' = Some p
        /\ save p (storage self) = (inr tt, storage self')).
Proof.
  split.
  - intros code redirect_uri H. rewrite exchange_code_unfold in H.
    apply complete_grant_success in H. tauto.
  - intros [token |] H.
    + rewrite refresh_tokens_supplied in H.
      apply complete_grant_success in H. tauto.
    + rewrite refresh_tokens_stored in H.
      destruct (load env (storage self)) as [e | [tokens |]];
        [discriminate | | discriminate].
      apply complete_grant_success in H. tauto.
Qed.

Lemma grant_result_cached_and_saved_witness :
  _tokens (snd (refresh_tokens Sample.env Sample.vendor None
                  (Sample.auth Sample.stale_db)))
  = Some Sample.fresh_pair
  /\ db_save Sample.fresh_pair Sample.stale_db
     = (inr tt,
        storage (snd (refresh_tokens Sample.env Sample.vendor None
                        (Sample.auth Sample.stale_db)))).
Proof.
  exact (proj2 (grant_result_cached_and_saved Sample.env Sample.vendor
                  (Sample.auth Sample.stale_db)
                  (snd (refresh_tokens Sample.env Sample.vendor None
                          (Sample.auth Sample.stale_db)))
                  Sample.fresh_pair) None eq_refl).
Defined.

(** [refresh_tokens] in terms of [load]: it posts a refresh grant that
    carries the supplied refresh token or, when none is supplied, the
    refresh token of the pair [load] returns; with no token supplied and
    no pair to load it raises [ValueError] and posts nothing; and when it
    returns a pair, that pair is the one built from the vendor's response
    and [save] has stored it.  [save] of either backend replaces what was
    stored by the whole pair. *)
Lemma refresh_tokens_by_load
    {S : Type} `{!TokenStorageProtocol S}
    (env : Env) (token_endpoint : grant -> Response)
    (supplied : option string) (self : OuraAuth S) :
  (forall token, supplied = Some token ->
     posted (snd (refresh_tokens env token_endpoint supplied self))
     = (posted self
        ++ [refresh_token_grant token (client_id self) (client_secret self)])%list)
  /\ (forall stored, supplied = None ->
        load env (storage self) = inr (Some stored) ->
        posted (snd (refresh_tokens env token_endpoint supplied self))
        = (posted self
           ++ [refresh_token_grant (refresh_token stored)
                 (client_id self) (client_secret self)])%list)
  /\ (supplied = None -> load env (storage self) = inr None ->
        refresh_tokens env token_endpoint supplied self
        = (inl (ValueError "No stored tokens and no refresh_token provided"),
           self))
  /\ (forall p self',
        refresh_tokens env token_endpoint supplied self = (inr p, self') ->
        exists g,
          posted self' = (posted self ++ [g])%list
          /\ is_success (token_endpoint g) = true
          /\ from_token_response env (response_json (token_endpoint g)) = inr p
          /\ save p (storage self) = (inr tt, storage self'))
  /\ (forall json_dumps isoformat p fs,
        file_save json_dumps isoformat p fs
        = (inr tt, Some (mkFile (json_dumps (to_dict isoformat p)) 384)))
  /\ (forall p db, reachable db = true ->
        db_save p db
        = (inr tt,
           mkDatabase true
             (Some (mkRow (access_token p) (refresh_token p) (expires_at p)
                          (Some (token_type p)))))).
Proof.
  repeat apply conj.
  - intros token ->. rewrite refresh_tokens_supplied.
    apply complete_grant_posted.
  - intros stored -> Hload. rewrite refresh_tokens_stored, Hload.
    apply complete_grant_posted.
  - intros -> Hload. by rewrite refresh_tokens_stored, Hload.
  - intros p self' H.
    assert (Hg : exists g, complete_grant env token_endpoint g self
                           = (inr p, self')).
    { destruct supplied as [token |].
      - rewrite refresh_tokens_supplied in H. eauto.
      - rewrite refresh_tokens_stored in H.
        destruct (load env (storage self)) as [e | [tokens |]];
          [discriminate | eauto | discriminate]. }
    destruct Hg as [g Hg]. exists g.
    pose proof (complete_grant_posted env token_endpoint g self) as Hp.
    rewrite Hg in Hp. apply complete_grant_success in Hg. tauto.
  - reflexivity.
  - intros p db Hr. unfold db_save. by rewrite Hr.
Qed.

(** Stated for the pair stored in the backend, the claim of
    [refresh_tokens] fails when both tokens are in the environment: with a
    row that holds the refresh token [refresh-1], the call without an
    argument posts the environment's refresh token, and with no row at all
    it does not fail but posts that token and returns the vendor's pair. *)
Lemma refresh_tokens_posts_env_token :
  oauth_tokens Sample.db
  = Some (mkRow "access-1" "refresh-1" 1751371200000000 (Some "bearer"))
  /\ posted (snd (refresh_tokens Sample.env_override Sample.vendor None
                    (Sample.auth Sample.db)))
     = [refresh_token_grant "env-refresh" "client" "secret"]
  /\ fst (refresh_tokens Sample.env_override Sample.short_lived_vendor None
            (Sample.auth (mkDatabase true None)))
     = inr (mkOAuthTokens "access-1" "refresh-1"
              (now Sample.env_override + seconds 60) "bearer")
  /\ posted (snd (refresh_tokens Sample.env_override Sample.short_lived_vendor
                    None (Sample.auth (mkDatabase true None))))
     = [refresh_token_grant "env-refresh" "client" "secret"].
Proof.
  repeat apply conj; reflexivity.
Qed.

(** C5 (amended): [refresh_tokens] posts a refresh grant that carries the
    supplied refresh token or, when none is supplied, the refresh token of
    the pair the store's [load] returns: the environment's refresh token
    when both tokens are in the environment, whatever the backend holds,
    and otherwise the refresh token of the pair in the backend (the pair
    the token file parses to, the row of the database).  With no token
    supplied, no pair in the environment and nothing in the backend it
    raises [ValueError] and posts nothing.  When it returns a pair, that
    pair is the one built from the vendor's response and [save] has stored
    it; [save] of either backend replaces what was stored by the whole
    pair. *)
Theorem refresh_tokens_grant_source
    (json_dumps : gmap string string -> string)
    (json_loads : string -> result json)
    (isoformat : datetime -> string)
    (fromisoformat : string -> result datetime)
    (env : Env) (token_endpoint : grant -> Response) :
  let on_file :=
    @refresh_tokens _
      (TokenStorage json_dumps json_loads isoformat fromisoformat)
      env token_endpoint in
  let on_db := @refresh_tokens _ DatabaseTokenStorage env token_endpoint in
  (* a supplied token is the one posted *)
  (forall token (self : OuraAuth (option file)),
     posted (snd (on_file (Some token) self))
     = (posted self
        ++ [refresh_token_grant token (client_id self) (client_secret self)])%list)
  /\ (forall token (self : OuraAuth Database),
        posted (snd (on_db (Some token) self))
        = (posted self
           ++ [refresh_token_grant token
                 (client_id self) (client_secret self)])%list)
  (* none supplied, both tokens in the environment *)
  /\ (env_supplied env ->
      (forall self : OuraAuth (option file),
         posted (snd (on_file None self))
         = (posted self
            ++ [refresh_token_grant (settings_refresh_token (settings env))
                  (client_id self) (client_secret self)])%list)
      /\ (forall self : OuraAuth Database,
            posted (snd (on_db None self))
            = (posted self
               ++ [refresh_token_grant (settings_refresh_token (settings env))
                     (client_id self) (client_secret self)])%list))
  (* none supplied, no pair in the environment: the pair in the backend *)
  /\ (~ env_supplied env ->
      (forall (self : OuraAuth (option file)) f T,
         storage self = Some f ->
         (data ← json_loads (content f); from_dict fromisoformat data)
         = inr T ->
         posted (snd (on_file None self))
         = (posted self
            ++ [refresh_token_grant (refresh_token T)
                  (client_id self) (client_secret self)])%list)
      /\ (forall (self : OuraAuth Database) row,
            storage self = mkDatabase true (Some row) ->
            posted (snd (on_db None self))
            = (posted self
               ++ [refresh_token_grant (row_refresh_token row)
                     (client_id self) (client_secret self)])%list)
      /\ (forall self : OuraAuth (option file),
            storage self = None ->
            on_file None self
            = (inl (ValueError
                      "No stored tokens and no refresh_token provided"),
               self))
      /\ (forall self : OuraAuth Database,
            oauth_tokens (storage self) = None
            \/ reachable (storage self) = false ->
            on_db None self
            = (inl (ValueError
                      "No stored tokens and no refresh_token provided"),
               self)))
  (* success: the vendor's pair, saved as a whole *)
  /\ (forall supplied (self self' : OuraAuth (option file)) p,
        on_file supplied self = (inr p, self') ->
        (exists g,
           posted self' = (posted self ++ [g])%list
           /\ is_success (token_endpoint g) = true
           /\ from_token_response env (response_json (token_endpoint g))
              = inr p)
        /\ storage self'
           = Some (mkFile (json_dumps (to_dict isoformat p)) 384))
  /\ (forall supplied (self self' : OuraAuth Database) p,
        on_db supplied self = (inr p, self') ->
        (exists g,
           posted self' = (posted self ++ [g])%list
           /\ is_success (token_endpoint g) = true
           /\ from_token_response env (response_json (token_endpoint g))
              = inr p)
        /\ storage self'
           = mkDatabase true
               (Some (mkRow (access_token p) (refresh_token p)
                            (expires_at p) (Some (token_type p))))).
Proof.
  intros on_file on_db. subst on_file on_db. repeat apply conj.
  - intros token self. rewrite refresh_tokens_supplied.
    apply complete_grant_posted.
  - intros token self. rewrite refresh_tokens_supplied.
    apply complete_grant_posted.
  - intros Hs. split.
    + intros self. rewrite refresh_tokens_stored. cbn [load TokenStorage].
      unfold file_load. rewrite env_guard_true by done.
      apply complete_grant_posted.
    + intros self. rewrite refresh_tokens_stored.
      cbn [load DatabaseTokenStorage].
      unfold db_load. rewrite env_guard_true by done.
      apply complete_grant_posted.
  - intros Hn. repeat apply conj.
    + intros self f T Hf HT. rewrite refresh_tokens_stored.
      cbn [load TokenStorage]. rewrite Hf.
      rewrite (file_load_parsed json_loads fromisoformat env f T) by done.
      apply complete_grant_posted.
    + intros self row Hrow. rewrite refresh_tokens_stored.
      cbn [load DatabaseTokenStorage]. rewrite Hrow.
      unfold db_load. rewrite env_guard_false by done. cbn.
      apply complete_grant_posted.
    + intros self Hnone. rewrite refresh_tokens_stored.
      cbn [load TokenStorage]. rewrite Hnone.
      unfold file_load. by rewrite env_guard_false.
    + intros self Hnone. rewrite refresh_tokens_stored.
      cbn [load DatabaseTokenStorage].
      unfold db_load. rewrite env_guard_false by done.
      destruct Hnone as [Hrow | Hdown].
      * rewrite Hrow. by destruct (reachable (storage self)).
      * by rewrite Hdown.
  - intros supplied self self' p Hret.
    destruct (proj1 (proj2 (proj2 (proj2
                (refresh_tokens_by_load env token_endpoint supplied self)))) p self' Hret)
      as (g & Hp & Hok & Hresp & Hsave).
    split; [eauto |].
    cbn in Hsave. unfold file_save in Hsave. by injection Hsave as <-.
  - intros supplied self self' p Hret.
    destruct (proj1 (proj2 (proj2 (proj2
                (refresh_tokens_by_load env token_endpoint supplied self)))) p self' Hret)
      as (g & Hp & Hok & Hresp & Hsave).
    split; [eauto |].
    cbn in Hsave. unfold db_save in Hsave.
    destruct (reachable (storage self)); [| discriminate].
    by injection Hsave as <-.
Qed.

(** With the stale row and no pair in the environment the stored refresh
    token is posted and the vendor's pair replaces the row; with nothing
    stored the call raises before any request. *)
Lemma refresh_tokens_grant_source_witness :
  posted (snd (refresh_tokens Sample.env Sample.vendor None
                 (Sample.auth Sample.stale_db)))
  = [refresh_token_grant "refresh-0" "client" "secret"]
  /\ storage (snd (refresh_tokens Sample.env Sample.vendor None
                     (Sample.auth Sample.stale_db)))
     = mkDatabase true
         (Some (mkRow "access-1" "refresh-1"
                  (1751367600000000 + 86400000000) (Some "bearer")))
  /\ refresh_tokens Sample.env Sample.vendor None
       (Sample.auth (mkDatabase true None))
     = (inl (ValueError "No stored tokens and no refresh_token provided"),
        Sample.auth (mkDatabase true None)).
Proof.
  assert (Hn : ~ env_supplied Sample.env) by (intros [H _]; by apply H).
  pose proof (refresh_tokens_grant_source Sample.json_dumps Sample.json_loads
                Sample.isoformat Sample.fromisoformat Sample.env
                Sample.vendor) as H.
  cbv zeta in H.
  destruct H as (_ & _ & _ & Hstored & _ & Hsaved).
  destruct (Hstored Hn) as (_ & Hrow & _ & Hnone).
  assert (Hret : refresh_tokens Sample.env Sample.vendor None
                   (Sample.auth Sample.stale_db)
                 = (inr Sample.fresh_pair,
                    snd (refresh_tokens Sample.env Sample.vendor None
                           (Sample.auth Sample.stale_db))))
    by reflexivity.
  split; [| split].
  - rewrite (Hrow (Sample.auth Sample.stale_db)
               (mkRow "access-0" "refresh-0" 1751364000000000 (Some "bearer"))
               eq_refl).
    reflexivity.
  - rewrite (proj2 (Hsaved None (Sample.auth Sample.stale_db) _
                      Sample.fresh_pair Hret)).
    reflexivity.
  - apply (Hnone (Sample.auth (mkDatabase true None))). by left.
Defined.

Section ValidToken.

Context {S : Type} `{!TokenStorageProtocol S}.
Variable env : Env.
Variable token_endpoint : grant -> Response.


Lemma get_valid_token_unfold (self : OuraAuth S) :
  get_valid_token env token_endpoint self
  = match cached_valid env self with
    | Some cached => (inr (access_token cached), self)
    | None =>
        match load env (storage self) with
        | inl e => (inl e, self)
        | inr None =>
            (inl (ValueError
                    "No tokens available. Run 'oura-scraper auth' first."),
             self)
        | inr (Some tokens) =>
            if is_expired (now env) tokens then
              match complete_grant env token_endpoint
                      (refresh_token_grant (refresh_token tokens)
                         (client_id self) (client_secret self)) self with
              | (inl e, self') => (inl e, self')
              | (inr p, self') =>
                  (inr (access_token p), set_tokens self' (Some p))
              end
            else (inr (access_token tokens), set_tokens self (Some tokens))
        end
    end.
Proof.
  unfold get_valid_token.
  unfold mbind at 1, method_bind at 1, gets at 1.
  destruct (cached_valid env self) as [cached |]; [reflexivity |].
  unfold mbind at 1, method_bind at 1, storage_load at 1.
  destruct (load env (storage self)) as [e | [tokens |]];
    [reflexivity | | reflexivity].
  destruct (is_expired (now env) tokens).
  - unfold mbind at 1, method_bind at 1.
    rewrite refresh_tokens_supplied.
    destruct (complete_grant _ _ _ _) as [[e | p] self']; reflexivity.
  - reflexivity.
Qed.


End ValidToken.





(** ** Interactive authorization *)

Section InteractiveFacts.

Context {S : Type} `{!TokenStorageProtocol S}.
Variable env : Env.
Variable token_endpoint : grant -> Response.
Variable urlencode : list (string * string) -> string.
Variable token_urlsafe : string.
Variable callback : option (gmap string (string * list string)).

Lemma authorize_interactive_unfold (port : Z) (open_browser : bool)
    (self : OuraAuth S) :
  authorize_interactive env token_endpoint urlencode token_urlsafe callback
    port open_browser self
  = let self3 := after_callback urlencode token_urlsafe callback port open_browser self in
    let cls := handler self3 in
    if truthy_opt (error cls) then
      (inl (ValueError ("Authorization failed: " ++ default "" (error cls))),
       self3)
    else
      match authorization_code cls with
      | None => (inl (ValueError "Authorization timed out or failed"), self3)
      | Some code =>
          if bool_decide (state cls = Some token_urlsafe)
          then exchange_code env token_endpoint code
                 ("http://localhost:" ++ pretty port ++ "/callback") self3
          else (inl (ValueError "State mismatch - possible CSRF attack"),
                self3)
      end.
Proof.
  unfold authorize_interactive, after_callback, get_authorization_url.
  destruct open_browser; run_method;
    destruct (truthy_opt _); try reflexivity;
    destruct (authorization_code _); try reflexivity;
    destruct (bool_decide _); reflexivity.
Qed.

(** Nothing before the checks posts to the token endpoint, touches the
    store or the cache. *)
Lemma after_callback_frame (port : Z) (open_browser : bool)
    (self : OuraAuth S) :
  posted (after_callback urlencode token_urlsafe callback port open_browser self) = posted self
  /\ storage (after_callback urlencode token_urlsafe callback port open_browser self) = storage self
  /\ _tokens (after_callback urlencode token_urlsafe callback port open_browser self) = _tokens self.
Proof.
  unfold after_callback, handle_request.
  destruct open_browser, callback; done.
Qed.

(** The handler's attributes when the checks run. *)
Lemma after_callback_handler (port : Z) (open_browser : bool)
    (self : OuraAuth S) :
  handler (after_callback urlencode token_urlsafe callback port open_browser self)
  = match callback with
    | Some params => fst (do_GET params (mkHandler None None None))
    | None => mkHandler None None None
    end.
Proof.
  unfold after_callback, handle_request.
  destruct open_browser, callback; done.
Qed.

End InteractiveFacts.

(** C6: [authorize_interactive] raises, and posts no code exchange,
    whenever the callback's [state] is not the state generated for the
    run (absent or different), whenever the callback carries [error], and
    when no callback arrives before the timeout; a callback with a code
    and a wrong state is reported as a state mismatch. *)
Theorem authorize_interactive_rejects
    {S : Type} `{!TokenStorageProtocol S}
    (env : Env) (token_endpoint : grant -> Response)
    (urlencode : list (string * string) -> string)
    (token_urlsafe : string)
    (callback : option (gmap string (string * list string)))
    (port : Z) (open_browser : bool) (self : OuraAuth S) :
  (forall params, callback = Some params ->
     fst <$> params !! "state" <> Some token_urlsafe ->
     aborted (authorize_interactive env token_endpoint urlencode
                token_urlsafe callback port open_browser self) self)
  /\ (forall params code, callback = Some params ->
        params !! "error" = None -> params !! "code" = Some code ->
        fst <$> params !! "state" <> Some token_urlsafe ->
        fst (authorize_interactive env token_endpoint urlencode
               token_urlsafe callback port open_browser self)
        = inl (ValueError "State mismatch - possible CSRF attack"))
  /\ (forall params, callback = Some params ->
        is_Some (params !! "error") ->
        aborted (authorize_interactive env token_endpoint urlencode
                   token_urlsafe callback port open_browser self) self)
  /\ (callback = None ->
        aborted (authorize_interactive env token_endpoint urlencode
                   token_urlsafe callback port open_browser self) self
        /\ fst (authorize_interactive env token_endpoint urlencode
                  token_urlsafe callback port open_browser self)
           = inl (ValueError "Authorization timed out or failed")).
Proof.
  rewrite authorize_interactive_unfold.
  pose proof (after_callback_frame urlencode token_urlsafe callback port
                open_browser self) as (Hp & Hs & Ht).
  pose proof (after_callback_handler urlencode token_urlsafe callback port
                open_browser self) as Hh.
  cbv zeta. rewrite Hh. clear Hh. unfold aborted.
  repeat apply conj.
  - intros params -> Hstate. unfold do_GET.
    destruct (params !! "error") as [e |]; cbn.
    + destruct (truthy (fst e)); cbn; eauto.
    + destruct (params !! "code") as [c |]; cbn; [| eauto].
      rewrite bool_decide_eq_false_2 by done. cbn. eauto.
  - intros params code -> He Hc Hstate. unfold do_GET. rewrite He, Hc. cbn.
    by rewrite bool_decide_eq_false_2.
  - intros params -> [e He]. unfold do_GET. rewrite He. cbn.
    destruct (truthy (fst e)); cbn; eauto.
  - intros ->. cbn. repeat apply conj; eauto.
Qed.

(** A forged callback, whose state is not the one generated, is refused
    and nothing is posted; so is a missing callback. *)
Lemma authorize_interactive_rejects_witness :
  aborted (authorize_interactive Sample.env Sample.vendor (fun _ => "query")
             "expected-state"
             (Some {[ "code" := ("code-1", []); "state" := ("forged", []) ]})
             8080 true (Sample.auth Sample.db))
          (Sample.auth Sample.db)
  /\ fst (authorize_interactive Sample.env Sample.vendor (fun _ => "query")
            "expected-state" None 8080 true (Sample.auth Sample.db))
     = inl (ValueError "Authorization timed out or failed").
Proof.
  split.
  - apply (proj1 (authorize_interactive_rejects Sample.env Sample.vendor
                    (fun _ => "query") "expected-state"
                    (Some {[ "code" := ("code-1", []);
                             "state" := ("forged", []) ]})
                    8080 true (Sample.auth Sample.db))
             {[ "code" := ("code-1", []); "state" := ("forged", []) ]});
      [reflexivity | discriminate].
  - apply (proj2 (proj2 (proj2 (proj2
             (authorize_interactive_rejects Sample.env Sample.vendor
                (fun _ => "query") "expected-state" None 8080 true
                (Sample.auth Sample.db)))) eq_refl)).
Defined.

(** ** The scraper: per-endpoint failure isolation *)

Lemma name_inj (e1 e2 : Scraper.endpoint) :
  Scraper.name e1 = Scraper.name e2 -> e1 = e2.
Proof. destruct e1, e2; (reflexivity || discriminate). Qed.

Section ScraperFacts.

Variables W E data : Type.
Variable str : E -> string.
Variable get : Scraper.endpoint -> W -> (E + data) * W.
Variable upsert : Scraper.endpoint -> data -> W -> (E + nat) * W.

Abbreviation _scrape := (Scraper._scrape str get upsert).
Abbreviation scrape_endpoints := (Scraper.scrape_endpoints str get upsert).
Abbreviation fetch_store := (Scraper.fetch_store get upsert).

(** A method files the outcome of its own steps under its own name, and
    leaves the world its steps left. *)
Lemma _scrape_own (e : Scraper.endpoint)
    (self : gmap string Scraper.entry * W) :
  fst (_scrape e self) !! Scraper.name e
  = Some (outcome_entry str (fst (fetch_store e (snd self))))
  /\ snd (_scrape e self) = snd (fetch_store e (snd self)).
Proof.
  unfold Scraper._scrape.
  destruct (fetch_store e (snd self)) as [[ex | n] w]; cbn;
    by rewrite lookup_insert_eq.
Qed.

(** A method leaves the entries of the other endpoints alone. *)
Lemma _scrape_other (e : Scraper.endpoint) (k : string)
    (self : gmap string Scraper.entry * W) :
  Scraper.name e <> k -> fst (_scrape e self) !! k = fst self !! k.
Proof.
  intros Hne. unfold Scraper._scrape.
  destruct (fetch_store e (snd self)) as [[ex | n] w]; cbn;
    by rewrite lookup_insert_ne.
Qed.

Lemma scrape_endpoints_app (l1 l2 : list Scraper.endpoint)
    (self : gmap string Scraper.entry * W) :
  scrape_endpoints (l1 ++ l2) self
  = scrape_endpoints l2 (scrape_endpoints l1 self).
Proof. unfold Scraper.scrape_endpoints. apply foldl_app. Qed.

(** The methods called later do not disturb an entry filed earlier. *)
Lemma scrape_endpoints_other (l : list Scraper.endpoint) (k : string) :
  forall self : gmap string Scraper.entry * W,
    (forall e, e ∈ l -> Scraper.name e <> k) ->
    fst (scrape_endpoints l self) !! k = fst self !! k.
Proof.
  induction l as [| e l IH]; intros self Hk; [reflexivity |].
  change (scrape_endpoints (e :: l) self)
    with (scrape_endpoints l (_scrape e self)).
  rewrite IH.
  - apply _scrape_other. apply Hk. by left.
  - intros e' He'. apply Hk. by right.
Qed.

(** In a list of distinct endpoints every endpoint's entry in the final
    report is the outcome of its own steps, run in the world its
    predecessors left. *)
Lemma scrape_endpoints_entry (pre post : list Scraper.endpoint)
    (e : Scraper.endpoint) (self : gmap string Scraper.entry * W) :
  NoDup (pre ++ e :: post) ->
  fst (scrape_endpoints (pre ++ e :: post) self) !! Scraper.name e
  = Some (outcome_entry str
            (fst (fetch_store e (snd (scrape_endpoints pre self))))).
Proof.
  intros Hnd. rewrite scrape_endpoints_app.
  change (scrape_endpoints (e :: post) (scrape_endpoints pre self))
    with (scrape_endpoints post (_scrape e (scrape_endpoints pre self))).
  rewrite scrape_endpoints_other.
  - apply _scrape_own.
  - intros e' He' Heq. apply name_inj in Heq. subst e'.
    apply NoDup_app in Hnd as (_ & _ & Hnd).
    apply NoDup_cons in Hnd as [Hnotin _]. contradiction.
Qed.

End ScraperFacts.

Lemma NoDup_three {A : Type} (a b c : A) :
  a <> b -> b <> c -> a <> c -> NoDup [a; b; c].
Proof.
  intros Hab Hbc Hac.
  apply NoDup_cons. split.
  - intros H. apply elem_of_cons in H as [-> | H]; [done |].
    apply elem_of_cons in H as [-> | H]; [done |]. by apply elem_of_nil in H.
  - apply NoDup_cons. split; [| apply NoDup_singleton].
    intros H. apply elem_of_cons in H as [-> | H]; [done |].
    by apply elem_of_nil in H.
Qed.

Lemma NoDup_ENDPOINTS : NoDup Scraper.ENDPOINTS.
Proof.
  unfold Scraper.ENDPOINTS.
  repeat (apply NoDup_cons; split;
          [rewrite ?elem_of_cons, elem_of_nil; intros H;
           repeat (destruct H as [H | H]; [discriminate |]); exact H |]).
  apply NoDup_nil. done.
Qed.

(** C2: once the connection is open, [scrape_all] returns the report and
    does not raise, whatever the endpoints' steps do.  Each endpoint of the
    fixed list is attempted in the world its predecessors left, failed or
    not, and its entry in the report is the outcome of its own steps:
    [{success: false, error: str(e)}] when they raised [e], and
    [{success: true, records: n}] otherwise.  For three endpoints of which
    only the second fails, the report has [success = true] for the first
    and third and [success = false] for the second. *)
Theorem scrape_all_isolates_failures
    (W E data : Type) (str : E -> string)
    (connect : W -> (E + unit) * W)
    (get : Scraper.endpoint -> W -> (E + data) * W)
    (upsert : Scraper.endpoint -> data -> W -> (E + nat) * W)
    (stats : gmap string Scraper.entry) (w w0 : W) (u : unit) :
  connect w = (inr u, w0) ->
  (exists report,
     fst (Scraper.scrape_all str connect get upsert (stats, w)) = inr report
     /\ fst (snd (Scraper.scrape_all str connect get upsert (stats, w)))
        = report
     /\ forall pre e post, Scraper.ENDPOINTS = (pre ++ e :: post)%list ->
          let before := Scraper.scrape_endpoints str get upsert pre (stats, w0) in
          report !! Scraper.name e
          = Some (outcome_entry str
                    (fst (Scraper.fetch_store get upsert e (snd before))))
          /\ snd (Scraper.scrape_endpoints str get upsert (pre ++ [e])
                    (stats, w0))
             = snd (Scraper.fetch_store get upsert e (snd before)))
  /\ (forall e1 e2 e3 stats1 w1 n1 w2 ex w3 n3 w4,
        e1 <> e2 -> e2 <> e3 -> e1 <> e3 ->
        Scraper.fetch_store get upsert e1 w1 = (inr n1, w2) ->
        Scraper.fetch_store get upsert e2 w2 = (inl ex, w3) ->
        Scraper.fetch_store get upsert e3 w3 = (inr n3, w4) ->
        let report :=
          fst (Scraper.scrape_endpoints str get upsert [e1; e2; e3]
                 (stats1, w1)) in
        report !! Scraper.name e1 = Some (Scraper.mkEntry true (Some n1) None)
        /\ report !! Scraper.name e2
           = Some (Scraper.mkEntry false None (Some (str ex)))
        /\ report !! Scraper.name e3
           = Some (Scraper.mkEntry true (Some n3) None)).
Proof.
  intros Hconn. split.
  - unfold Scraper.scrape_all. cbn [fst snd]. rewrite Hconn. cbn [fst snd].
    exists (fst (Scraper.scrape_endpoints str get upsert Scraper.ENDPOINTS
                   (stats, w0))).
    split; [reflexivity |]. split; [reflexivity |].
    intros pre e post Heq. cbv zeta. split.
    + rewrite Heq. apply scrape_endpoints_entry.
      rewrite <- Heq. apply NoDup_ENDPOINTS.
    + rewrite scrape_endpoints_app. apply _scrape_own.
  - intros e1 e2 e3 stats1 w1 n1 w2 ex w3 n3 w4 H12 H23 H13 F1 F2 F3 report.
    assert (Hnd : NoDup [e1; e2; e3]).
    { by apply NoDup_three. }
    subst report. repeat apply conj.
    + rewrite (scrape_endpoints_entry W E data str get upsert [] [e2; e3] e1)
        by done.
      cbn. by rewrite F1.
    + rewrite (scrape_endpoints_entry W E data str get upsert [e1] [e3] e2)
        by done.
      cbn. unfold Scraper._scrape. cbn. rewrite F1. cbn. by rewrite F2.
    + rewrite (scrape_endpoints_entry W E data str get upsert [e1; e2] [] e3)
        by done.
      cbn. unfold Scraper._scrape. cbn. rewrite F1. cbn. rewrite F2. cbn.
      by rewrite F3.
Qed.

(** In the sample run [daily_activity] fails; it is filed as failed, and
    [daily_sleep], called next, is attempted and filed as a success. *)
Lemma scrape_all_isolates_failures_witness :
  exists report,
    fst (Scraper.scrape_all id SampleRun.connect SampleRun.get
           SampleRun.upsert (∅, [])) = inr report
    /\ report !! "daily_activity"
       = Some (Scraper.mkEntry false None
                 (Some "Server error '500 Internal Server Error'"))
    /\ report !! "daily_sleep" = Some (Scraper.mkEntry true (Some 3%nat) None).
Proof.
  destruct (scrape_all_isolates_failures (list string) string nat id
              SampleRun.connect SampleRun.get SampleRun.upsert ∅ [] [] tt
              eq_refl) as [(report & Hret & _ & Hentries) _].
  exists report. split; [exact Hret |]. split.
  - exact (proj1 (Hentries [Scraper.personal_info] Scraper.daily_activity
                    (drop 2 Scraper.ENDPOINTS) eq_refl)).
  - exact (proj1 (Hentries [Scraper.personal_info; Scraper.daily_activity]
                    Scraper.daily_sleep (drop 3 Scraper.ENDPOINTS) eq_refl)).
Defined.

(** * Further properties *)

(** ** Token stores: clearing, tolerated files *)

(** X1: without a pair in the environment, [load] after [clear] returns
    nothing, whatever was stored: the file backend's [clear] always
    succeeds, also on a missing file; the database backend's [clear]
    succeeds when the database is reachable, and otherwise raises and
    leaves the row as it was. *)
Theorem load_after_clear
    (json_loads : string -> result json)
    (fromisoformat : string -> result datetime) (env : Env) :
  ~ env_supplied env ->
  (forall fs,
     fst (file_clear fs) = inr tt
     /\ file_load json_loads fromisoformat env (snd (file_clear fs))
        = inr None)
  /\ (forall db, reachable db = true ->
        fst (db_clear db) = inr tt
        /\ db_load env (snd (db_clear db)) = inr None)
  /\ (forall db, reachable db = false ->
        exists e, db_clear db = (inl e, db)).
Proof.
  intros Hn. repeat apply conj.
  - intros fs. split; [reflexivity |].
    unfold file_load. by rewrite env_guard_false.
  - intros db Hr. unfold db_clear. rewrite Hr. split; [reflexivity |].
    cbn. unfold db_load. by rewrite env_guard_false.
  - intros db Hr. unfold db_clear. rewrite Hr. eauto.
Qed.

Lemma load_after_clear_witness :
  file_load Sample.json_loads Sample.fromisoformat Sample.env
    (snd (file_clear (Some (mkFile Sample.pair_text 384)))) = inr None
  /\ db_load Sample.env (snd (db_clear Sample.db)) = inr None.
Proof.
  assert (Hn : ~ env_supplied Sample.env) by (intros [H _]; by apply H).
  destruct (load_after_clear Sample.json_loads Sample.fromisoformat
              Sample.env Hn) as (Hfile & Hdb & _).
  split.
  - apply (Hfile (Some (mkFile Sample.pair_text 384))).
  - apply (Hdb Sample.db eq_refl).
Defined.

(** X2: without a pair in the environment, the file backend's [load]
    returns nothing, and does not raise, on a file that is not JSON and on
    a JSON object that lacks [access_token], [refresh_token] or
    [expires_at]; on an object that lacks only [token_type] it returns the
    pair with [token_type = "bearer"]. *)
Theorem file_load_tolerated
    (json_loads : string -> result json)
    (fromisoformat : string -> result datetime) (env : Env) (f : file) :
  ~ env_supplied env ->
  (forall msg, json_loads (content f) = inl (JSONDecodeError msg) ->
     file_load json_loads fromisoformat env (Some f) = inr None)
  /\ (forall d, json_loads (content f) = inr (JObject d) ->
        d !! "access_token" = None \/ d !! "refresh_token" = None
        \/ d !! "expires_at" = None ->
        file_load json_loads fromisoformat env (Some f) = inr None)
  /\ (forall d a r e dt, json_loads (content f) = inr (JObject d) ->
        d !! "access_token" = Some a -> d !! "refresh_token" = Some r ->
        d !! "expires_at" = Some e -> fromisoformat e = inr dt ->
        d !! "token_type" = None ->
        file_load json_loads fromisoformat env (Some f)
        = inr (Some (mkOAuthTokens a r dt "bearer"))).
Proof.
  intros Hn. unfold file_load. rewrite env_guard_false by done.
  repeat apply conj.
  - by intros msg ->.
  - intros d -> Hmiss. cbn. unfold from_dict, getitem.
    destruct (d !! "access_token") as [a |]; [cbn | done].
    destruct (d !! "refresh_token") as [r |]; [cbn | done].
    destruct (d !! "expires_at") as [e |]; [| done].
    by destruct Hmiss as [H | [H | H]].
  - intros d a r e dt -> Ha Hr He Hdt Htt. cbn.
    unfold from_dict, getitem, get_default. rewrite Ha, Hr, He. cbn.
    rewrite Hdt. cbn. by rewrite Htt.
Qed.

Lemma file_load_tolerated_witness :
  file_load Sample.json_loads Sample.fromisoformat Sample.env
    (Some (mkFile "not json" 384)) = inr None.
Proof.
  assert (Hn : ~ env_supplied Sample.env) by (intros [H _]; by apply H).
  apply (proj1 (file_load_tolerated Sample.json_loads Sample.fromisoformat
                  Sample.env (mkFile "not json" 384) Hn)
           "Expecting value").
  reflexivity.
Defined.

(** ** The session manager: failed grants, the environment's pair,
    repeated calls *)

Section GrantFailures.

Context {S : Type} `{!TokenStorageProtocol S}.
Variable env : Env.
Variable token_endpoint : grant -> Response.

(** A grant touches neither the browser log, nor the handler, nor the
    client credentials. *)
Lemma complete_grant_frame (g : grant) (self : OuraAuth S) :
  opened (snd (complete_grant env token_endpoint g self)) = opened self
  /\ handler (snd (complete_grant env token_endpoint g self)) = handler self
  /\ client_id (snd (complete_grant env token_endpoint g self))
     = client_id self
  /\ client_secret (snd (complete_grant env token_endpoint g self))
     = client_secret self.
Proof.
  unfold complete_grant.
  destruct (is_success _); [| done].
  destruct (from_token_response _ _); [done |].
  by destruct (save _ _) as [[e | u] s].
Qed.

(** A grant the vendor rejects, or answers without one of the two tokens,
    ends in the state that differs from the start by the posted form
    only. *)
Lemma complete_grant_early_failure (g : grant) (self : OuraAuth S) :
  (is_success (token_endpoint g) = false ->
     complete_grant env token_endpoint g self
     = (inl (HTTPStatusError (status_code (token_endpoint g))),
        add_posted self g))
  /\ (is_success (token_endpoint g) = true ->
      response_access_token (response_json (token_endpoint g)) = None ->
      complete_grant env token_endpoint g self
      = (inl (KeyError "access_token"), add_posted self g))
  /\ (is_success (token_endpoint g) = true ->
      is_Some (response_access_token (response_json (token_endpoint g))) ->
      response_refresh_token (response_json (token_endpoint g)) = None ->
      complete_grant env token_endpoint g self
      = (inl (KeyError "refresh_token"), add_posted self g)).
Proof.
  unfold complete_grant, from_token_response, member. repeat apply conj.
  - by intros ->.
  - by intros -> ->.
  - by intros -> [a ->] ->.
Qed.

End GrantFailures.

(** X3: when the vendor answers a code exchange or a refresh with a status
    outside 200..299, the method raises [HTTPStatusError] with that status;
    when it answers 2xx without [access_token] or without [refresh_token],
    the method raises [KeyError] naming the missing member.  In each case
    the form has been posted and nothing else has changed: the store and
    the cache are as before. *)
Theorem failed_grant_changes_nothing
    {S : Type} `{!TokenStorageProtocol S}
    (env : Env) (token_endpoint : grant -> Response) (self : OuraAuth S) :
  (forall code redirect_uri,
     let g := authorization_code_grant code redirect_uri
                (client_id self) (client_secret self) in
     (is_success (token_endpoint g) = false ->
        exchange_code env token_endpoint code redirect_uri self
        = (inl (HTTPStatusError (status_code (token_endpoint g))),
           add_posted self g))
     /\ (is_success (token_endpoint g) = true ->
         response_access_token (response_json (token_endpoint g)) = None ->
         exchange_code env token_endpoint code redirect_uri self
         = (inl (KeyError "access_token"), add_posted self g))
     /\ (is_success (token_endpoint g) = true ->
         is_Some (response_access_token (response_json (token_endpoint g))) ->
         response_refresh_token (response_json (token_endpoint g)) = None ->
         exchange_code env token_endpoint code redirect_uri self
         = (inl (KeyError "refresh_token"), add_posted self g)))
  /\ (forall token,
        let g := refresh_token_grant token
                   (client_id self) (client_secret self) in
        (is_success (token_endpoint g) = false ->
           refresh_tokens env token_endpoint (Some token) self
           = (inl (HTTPStatusError (status_code (token_endpoint g))),
              add_posted self g))
        /\ (is_success (token_endpoint g) = true ->
            response_access_token (response_json (token_endpoint g)) = None ->
            refresh_tokens env token_endpoint (Some token) self
            = (inl (KeyError "access_token"), add_posted self g))
        /\ (is_success (token_endpoint g) = true ->
            is_Some (response_access_token
                       (response_json (token_endpoint g))) ->
            response_refresh_token (response_json (token_endpoint g)) = None ->
            refresh_tokens env token_endpoint (Some token) self
            = (inl (KeyError "refresh_token"), add_posted self g)))
  /\ (forall g, storage (add_posted self g) = storage self
                /\ _tokens (add_posted self g) = _tokens self
                /\ posted (add_posted self g) = (posted self ++ [g])%list).
Proof.
  repeat apply conj.
  - intros code redirect_uri g. rewrite exchange_code_unfold.
    apply complete_grant_early_failure.
  - intros token g. rewrite refresh_tokens_supplied.
    apply complete_grant_early_failure.
  - done.
Qed.

Lemma failed_grant_changes_nothing_witness :
  refresh_tokens Sample.env Sample.rejecting_vendor (Some "refresh-0")
    (Sample.auth Sample.stale_db)
  = (inl (HTTPStatusError 401),
     add_posted (Sample.auth Sample.stale_db)
       (refresh_token_grant "refresh-0" "client" "secret")).
Proof.
  apply (proj1 (proj1 (proj2 (failed_grant_changes_nothing Sample.env
                                Sample.rejecting_vendor
                                (Sample.auth Sample.stale_db)))
                  "refresh-0")).
  reflexivity.
Defined.

(** X4: when the vendor has issued a new pair and the backend's [save]
    raises, [refresh_tokens] and [exchange_code] raise that exception and
    the cache keeps the pair it held before the call, so the pair just
    issued is neither stored nor cached.  With the database backend this
    happens whenever the database cannot be reached, and the row stays as
    it was. *)
Theorem save_failure_drops_issued_pair
    {S : Type} `{!TokenStorageProtocol S}
    (env : Env) (token_endpoint : grant -> Response)
    (self : OuraAuth S) (p : OAuthTokens) (e : exn) (s : S) :
  save p (storage self) = (inl e, s) ->
  (forall token,
     let g := refresh_token_grant token (client_id self) (client_secret self) in
     is_success (token_endpoint g) = true ->
     from_token_response env (response_json (token_endpoint g)) = inr p ->
     refresh_tokens env token_endpoint (Some token) self
     = (inl e, set_storage (add_posted self g) s)
     /\ _tokens (set_storage (add_posted self g) s) = _tokens self)
  /\ (forall code redirect_uri,
        let g := authorization_code_grant code redirect_uri
                   (client_id self) (client_secret self) in
        is_success (token_endpoint g) = true ->
        from_token_response env (response_json (token_endpoint g)) = inr p ->
        exchange_code env token_endpoint code redirect_uri self
        = (inl e, set_storage (add_posted self g) s)
        /\ _tokens (set_storage (add_posted self g) s) = _tokens self)
  /\ (forall db, reachable db = false ->
        exists e', db_save p db = (inl e', db)).
Proof.
  intros Hsave. repeat apply conj.
  - intros token g Hok Hp. split; [| reflexivity].
    rewrite refresh_tokens_supplied. unfold complete_grant.
    fold g. by rewrite Hok, Hp, Hsave.
  - intros code redirect_uri g Hok Hp. split; [| reflexivity].
    rewrite exchange_code_unfold. unfold complete_grant.
    fold g. by rewrite Hok, Hp, Hsave.
  - intros db Hr. unfold db_save. rewrite Hr. eauto.
Qed.

(** With the database down, a refresh with a token the vendor honours
    raises, and the manager is left without the new pair. *)
Lemma save_failure_drops_issued_pair_witness :
  refresh_tokens Sample.env Sample.vendor (Some "refresh-0")
    (Sample.auth (mkDatabase false None))
  = (inl (PsycopgError "connection failed"),
     add_posted (Sample.auth (mkDatabase false None))
       (refresh_token_grant "refresh-0" "client" "secret")).
Proof.
  assert (Hsave : save Sample.fresh_pair
                    (storage (Sample.auth (mkDatabase false None)))
                  = (inl (PsycopgError "connection failed"),
                     mkDatabase false None)) by reflexivity.
  apply (proj1 (proj1 (save_failure_drops_issued_pair Sample.env
                         Sample.vendor (Sample.auth (mkDatabase false None))
                         Sample.fresh_pair
                         (PsycopgError "connection failed")
                         (mkDatabase false None) Hsave)
                  "refresh-0" eq_refl eq_refl)).
Defined.

(** The pair synthesized from the environment is never expired. *)
Lemma env_tokens_not_expired (env : Env) :
  is_expired (now env) (env_tokens env) = false.
Proof.
  unfold is_expired, env_tokens, days, minutes, seconds. cbn.
  destruct (Z.geb_spec (now env)
              (now env + 365 * 86400 * 1000000 - 5 * 60 * 1000000));
    [lia | reflexivity].
Qed.

(** When [load] yields the environment's pair, [get_valid_token] neither
    posts nor writes, and returns the environment's access token unless
    the cache holds an unexpired pair. *)
Lemma get_valid_token_env_pair
    {S : Type} `{!TokenStorageProtocol S}
    (env : Env) (token_endpoint : grant -> Response) (self : OuraAuth S) :
  load env (storage self) = inr (Some (env_tokens env)) ->
  posted (snd (get_valid_token env token_endpoint self)) = posted self
  /\ storage (snd (get_valid_token env token_endpoint self)) = storage self
  /\ (cached_valid env self = None ->
      get_valid_token env token_endpoint self
      = (inr (settings_access_token (settings env)),
         set_tokens self (Some (env_tokens env)))).
Proof.
  intros Hload. rewrite get_valid_token_unfold.
  destruct (cached_valid env self) as [c |]; [done |].
  rewrite Hload, env_tokens_not_expired. done.
Qed.

(** X5: with both tokens in the environment, [get_valid_token] never posts
    to the token endpoint and never writes to the store, on either
    backend and whatever the backend holds; when the cache is empty or
    stale it returns the environment's access token, which is therefore
    never refreshed. *)
Theorem env_pair_is_never_refreshed
    (json_dumps : gmap string string -> string)
    (json_loads : string -> result json)
    (isoformat : datetime -> string)
    (fromisoformat : string -> result datetime)
    (env : Env) (token_endpoint : grant -> Response) :
  env_supplied env ->
  (forall self : OuraAuth (option file),
     let r := @get_valid_token _
                (TokenStorage json_dumps json_loads isoformat fromisoformat)
                env token_endpoint self in
     posted (snd r) = posted self
     /\ storage (snd r) = storage self
     /\ (cached_valid env self = None ->
         r = (inr (settings_access_token (settings env)),
              set_tokens self (Some (env_tokens env)))))
  /\ (forall self : OuraAuth Database,
        let r := get_valid_token env token_endpoint self in
        posted (snd r) = posted self
        /\ storage (snd r) = storage self
        /\ (cached_valid env self = None ->
            r = (inr (settings_access_token (settings env)),
                 set_tokens self (Some (env_tokens env))))).
Proof.
  intros Hs. split.
  - intros self r. apply get_valid_token_env_pair.
    cbn. unfold file_load. by rewrite env_guard_true.
  - intros self r. apply get_valid_token_env_pair.
    cbn. unfold db_load. by rewrite env_guard_true.
Qed.

Lemma env_pair_is_never_refreshed_witness :
  get_valid_token Sample.env_override Sample.rejecting_vendor
    (Sample.auth Sample.stale_db)
  = (inr "env-access",
     set_tokens (Sample.auth Sample.stale_db)
       (Some (env_tokens Sample.env_override))).
Proof.
  assert (Hs : env_supplied Sample.env_override) by (split; discriminate).
  apply (proj2 (proj2 (proj2
           (env_pair_is_never_refreshed Sample.json_dumps Sample.json_loads
              Sample.isoformat Sample.fromisoformat Sample.env_override
              Sample.rejecting_vendor Hs)
           (Sample.auth Sample.stale_db)))).
  reflexivity.
Defined.



(** X7: refresh-token rotation on the database backend.  Without a pair
    in the environment, after [refresh_tokens] has returned a pair, the
    next [refresh_tokens()] without an argument posts the refresh token of
    that pair, not the one used before. *)
Theorem refresh_rotates_stored_token
    (env : Env) (token_endpoint : grant -> Response)
    (supplied : option string) (self self' : OuraAuth Database)
    (p : OAuthTokens) :
  ~ env_supplied env ->
  refresh_tokens env token_endpoint supplied self = (inr p, self') ->
  posted (snd (refresh_tokens env token_endpoint None self'))
  = (posted self'
     ++ [refresh_token_grant (refresh_token p)
           (client_id self) (client_secret self)])%list.
Proof.
  intros Hn Hfirst.
  assert (Hg : exists g, complete_grant env token_endpoint g self
                         = (inr p, self')).
  { destruct supplied as [token |].
    - rewrite refresh_tokens_supplied in Hfirst. eauto.
    - rewrite refresh_tokens_stored in Hfirst.
      destruct (load env (storage self)) as [e | [tokens |]];
        [discriminate | eauto | discriminate]. }
  destruct Hg as [g Hg].
  apply complete_grant_success in Hg as (_ & _ & Hsave & _ & Hid & Hsecret).
  assert (Hload : load env (storage self')
                  = inr (Some (mkOAuthTokens (access_token p)
                                 (refresh_token p) (expires_at p)
                                 (or_else (Some (token_type p)) "bearer")))).
  { cbn in Hsave. unfold db_save in Hsave.
    destruct (reachable (storage self)); [| discriminate].
    injection Hsave as <-. cbn. unfold db_load.
    by rewrite env_guard_false. }
  rewrite refresh_tokens_stored, Hload, complete_grant_posted.
  cbn. by rewrite Hid, Hsecret.
Qed.

Lemma refresh_rotates_stored_token_witness :
  posted (snd (refresh_tokens Sample.env Sample.vendor None
                 (snd (refresh_tokens Sample.env Sample.vendor None
                         (Sample.auth Sample.stale_db)))))
  = [refresh_token_grant "refresh-0" "client" "secret";
     refresh_token_grant "refresh-1" "client" "secret"].
Proof.
  assert (Hn : ~ env_supplied Sample.env) by (intros [H _]; by apply H).
  assert (Hfirst : refresh_tokens Sample.env Sample.vendor None
                     (Sample.auth Sample.stale_db)
                   = (inr Sample.fresh_pair,
                      snd (refresh_tokens Sample.env Sample.vendor None
                             (Sample.auth Sample.stale_db))))
    by reflexivity.
  rewrite (refresh_rotates_stored_token Sample.env Sample.vendor None
             (Sample.auth Sample.stale_db) _ Sample.fresh_pair Hn Hfirst).
  reflexivity.
Defined.

(** X8: with both tokens in the environment, [refresh_tokens()] without an
    argument posts the environment's refresh token on every call, on the
    database backend: after a refresh that returned a new pair and saved
    it, the next one posts the same token again, not the new pair's. *)
Theorem env_pair_defeats_rotation
    (env : Env) (token_endpoint : grant -> Response)
    (self self' : OuraAuth Database) (p : OAuthTokens) :
  env_supplied env ->
  refresh_tokens env token_endpoint None self = (inr p, self') ->
  posted self'
  = (posted self
     ++ [refresh_token_grant (settings_refresh_token (settings env))
           (client_id self) (client_secret self)])%list
  /\ oauth_tokens (storage self')
     = Some (mkRow (access_token p) (refresh_token p) (expires_at p)
                   (Some (token_type p)))
  /\ posted (snd (refresh_tokens env token_endpoint None self'))
     = (posted self'
        ++ [refresh_token_grant (settings_refresh_token (settings env))
              (client_id self) (client_secret self)])%list.
Proof.
  intros Hs Hfirst.
  assert (Hload : forall db, load env db = inr (Some (env_tokens env))).
  { intros db. cbn. unfold db_load. by rewrite env_guard_true. }
  rewrite refresh_tokens_stored, Hload in Hfirst. cbn in Hfirst.
  pose proof (complete_grant_posted env token_endpoint
                (refresh_token_grant (settings_refresh_token (settings env))
                   (client_id self) (client_secret self)) self) as Hp.
  rewrite Hfirst in Hp. cbn in Hp.
  apply complete_grant_success in Hfirst
    as (_ & _ & Hsave & _ & Hid & Hsecret).
  repeat apply conj.
  - exact Hp.
  - cbn in Hsave. unfold db_save in Hsave.
    destruct (reachable (storage self)); [| discriminate].
    by injection Hsave as <-.
  - rewrite refresh_tokens_stored, Hload, complete_grant_posted.
    cbn. by rewrite Hid, Hsecret.
Qed.

Lemma env_pair_defeats_rotation_witness :
  posted (snd (refresh_tokens Sample.env_override Sample.short_lived_vendor
                 None
                 (snd (refresh_tokens Sample.env_override
                         Sample.short_lived_vendor None
                         (Sample.auth Sample.stale_db)))))
  = [refresh_token_grant "env-refresh" "client" "secret";
     refresh_token_grant "env-refresh" "client" "secret"].
Proof.
  assert (Hs : env_supplied Sample.env_override) by (split; discriminate).
  assert (Hfirst : refresh_tokens Sample.env_override
                     Sample.short_lived_vendor None
                     (Sample.auth Sample.stale_db)
                   = (inr (mkOAuthTokens "access-1" "refresh-1"
                             (now Sample.env_override + seconds 60) "bearer"),
                      snd (refresh_tokens Sample.env_override
                             Sample.short_lived_vendor None
                             (Sample.auth Sample.stale_db))))
    by reflexivity.
  rewrite (proj2 (proj2
             (env_pair_defeats_rotation Sample.env_override
                Sample.short_lived_vendor (Sample.auth Sample.stale_db) _ _
                Hs Hfirst))).
  reflexivity.
Defined.

(** ** Interactive authorization: the accepted callback, stale results,
    the browser *)

Section InteractiveSuccess.

Context {S : Type} `{!TokenStorageProtocol S}.
Variable env : Env.
Variable token_endpoint : grant -> Response.
Variable urlencode : list (string * string) -> string.
Variable token_urlsafe : string.
Variable callback : option (gmap string (string * list string)).

(** The steps before the checks leave the client credentials alone, and
    open the browser only when asked. *)
Lemma after_callback_credentials (port : Z) (open_browser : bool)
    (self : OuraAuth S) :
  client_id (after_callback urlencode token_urlsafe callback port
               open_browser self) = client_id self
  /\ client_secret (after_callback urlencode token_urlsafe callback port
                      open_browser self) = client_secret self.
Proof.
  unfold after_callback, handle_request.
  destruct open_browser, callback; done.
Qed.

(** The attributes an earlier run left in the handler class are reset. *)
Lemma after_callback_reset (port : Z) (open_browser : bool)
    (self : OuraAuth S) (stale : OAuthCallbackHandler) :
  after_callback urlencode token_urlsafe callback port open_browser
    (set_handler self stale)
  = after_callback urlencode token_urlsafe callback port open_browser self.
Proof.
  unfold after_callback, handle_request.
  destruct open_browser, callback; reflexivity.
Qed.

End InteractiveSuccess.

(** X9: when the callback carries no [error], a [code], and the state
    generated for the run, [authorize_interactive] posts exactly one code
    exchange, for that code and for the redirect URI
    [http://localhost:<port>/callback]; when it returns a pair, the pair
    is the one built from the vendor's response, and it has been saved and
    cached. *)
Theorem authorize_interactive_exchanges
    {S : Type} `{!TokenStorageProtocol S}
    (env : Env) (token_endpoint : grant -> Response)
    (urlencode : list (string * string) -> string)
    (token_urlsafe : string)
    (params : gmap string (string * list string))
    (code : string * list string)
    (port : Z) (open_browser : bool) (self : OuraAuth S) :
  params !! "error" = None ->
  params !! "code" = Some code ->
  fst <$> params !! "state" = Some token_urlsafe ->
  let r := authorize_interactive env token_endpoint urlencode token_urlsafe
             (Some params) port open_browser self in
  let g := authorization_code_grant (fst code)
             ("http://localhost:" ++ pretty port ++ "/callback")
             (client_id self) (client_secret self) in
  posted (snd r) = (posted self ++ [g])%list
  /\ (is_success (token_endpoint g) = false ->
      fst r = inl (HTTPStatusError (status_code (token_endpoint g))))
  /\ (forall p, fst r = inr p ->
        from_token_response env (response_json (token_endpoint g)) = inr p
        /\ _tokens (snd r) = Some p
        /\ save p (storage self) = (inr tt, storage (snd r))).
Proof.
  intros He Hc Hs r g. subst r.
  rewrite authorize_interactive_unfold. cbv zeta.
  pose proof (after_callback_frame urlencode token_urlsafe (Some params) port
                open_browser self) as (Hp & Hst & _).
  pose proof (after_callback_credentials urlencode token_urlsafe
                (Some params) port open_browser self) as (Hid & Hsec).
  pose proof (after_callback_handler urlencode token_urlsafe (Some params)
                port open_browser self) as Hh.
  set (self3 := after_callback _ _ _ _ _ _) in *. clearbody self3.
  rewrite Hh. unfold do_GET. rewrite He, Hc. cbn.
  rewrite bool_decide_eq_true_2 by done.
  rewrite exchange_code_unfold, Hid, Hsec. fold g.
  repeat apply conj.
  - by rewrite complete_grant_posted, Hp.
  - intros Hfail. unfold complete_grant. by rewrite Hfail.
  - intros p Hret.
    destruct (complete_grant env token_endpoint g self3)
      as [res self4] eqn:Hg.
    cbn in Hret. subst res.
    apply complete_grant_success in Hg as (_ & Hresp & Hsave & Hcache & _).
    rewrite Hst in Hsave. done.
Qed.

Lemma authorize_interactive_exchanges_witness :
  posted (snd (authorize_interactive Sample.env Sample.vendor
                 (fun _ => "query") "xyz" (Some granted) 8080 false
                 (Sample.auth (mkDatabase true None))))
  = [authorization_code_grant "abc" "http://localhost:8080/callback"
       "client" "secret"].
Proof.
  exact (proj1 (authorize_interactive_exchanges Sample.env Sample.vendor
                  (fun _ => "query") "xyz" granted ("abc", []) 8080 false
                  (Sample.auth (mkDatabase true None))
                  eq_refl eq_refl eq_refl)).
Defined.

(** X10: results of an earlier run do not leak into the next: whatever
    code, state or error the handler class still holds when
    [authorize_interactive] starts, the call returns the same result and
    leaves the same state. *)
Theorem authorize_interactive_ignores_stale_result
    {S : Type} `{!TokenStorageProtocol S}
    (env : Env) (token_endpoint : grant -> Response)
    (urlencode : list (string * string) -> string)
    (token_urlsafe : string)
    (callback : option (gmap string (string * list string)))
    (port : Z) (open_browser : bool) (self : OuraAuth S)
    (stale : OAuthCallbackHandler) :
  authorize_interactive env token_endpoint urlencode token_urlsafe callback
    port open_browser (set_handler self stale)
  = authorize_interactive env token_endpoint urlencode token_urlsafe callback
      port open_browser self.
Proof.
  rewrite !authorize_interactive_unfold. cbv zeta.
  by rewrite after_callback_reset.
Qed.

(** X11: [authorize_interactive] hands a URL to the browser only when
    [open_browser] is set, and then exactly one: the authorization URL
    whose query carries the client id, the redirect URI for the port, all
    scopes and the state generated for the run.  This holds however the
    run ends. *)
Theorem authorize_interactive_browser
    {S : Type} `{!TokenStorageProtocol S}
    (env : Env) (token_endpoint : grant -> Response)
    (urlencode : list (string * string) -> string)
    (token_urlsafe : string)
    (callback : option (gmap string (string * list string)))
    (port : Z) (open_browser : bool) (self : OuraAuth S) :
  opened (snd (authorize_interactive env token_endpoint urlencode
                 token_urlsafe callback port open_browser self))
  = if open_browser then
      (opened self
       ++ [("https://cloud.ouraring.com/oauth/authorize?"
            ++ urlencode
                 [("response_type", "code"); ("client_id", client_id self);
                  ("redirect_uri",
                   "http://localhost:" ++ pretty port ++ "/callback");
                  ("scope",
                   "email personal daily heartrate workout tag session spo2");
                  ("state", token_urlsafe)])%string])%list
    else opened self.
Proof.
  rewrite authorize_interactive_unfold. cbv zeta.
  assert (Ho : opened (after_callback urlencode token_urlsafe callback port
                         open_browser self)
               = if open_browser then
                   (opened self
                    ++ [("https://cloud.ouraring.com/oauth/authorize?"
                         ++ urlencode
                              [("response_type", "code");
                               ("client_id", client_id self);
                               ("redirect_uri",
                                "http://localhost:" ++ pretty port
                                ++ "/callback");
                               ("scope",
                                "email personal daily heartrate workout tag session spo2");
                               ("state", token_urlsafe)])%string])%list
                 else opened self).
  { unfold after_callback, handle_request.
    destruct open_browser, callback; reflexivity. }
  set (self3 := after_callback _ _ _ _ _ _) in *. clearbody self3.
  destruct (truthy_opt _); [exact Ho |].
  destruct (authorization_code _); [| exact Ho].
  destruct (bool_decide _); [| exact Ho].
  rewrite exchange_code_unfold.
  by rewrite (proj1 (complete_grant_frame env token_endpoint _ self3)).
Qed.

(** ** The scraper: the shape of the report, repeated runs *)

Lemma elem_of_ENDPOINTS (e : Scraper.endpoint) : e ∈ Scraper.ENDPOINTS.
Proof.
  unfold Scraper.ENDPOINTS. rewrite !elem_of_cons. destruct e; tauto.
Qed.

Section ReportFacts.

Variables W E data : Type.
Variable str : E -> string.
Variable get : Scraper.endpoint -> W -> (E + data) * W.
Variable upsert : Scraper.endpoint -> data -> W -> (E + nat) * W.

(** Two runs of the same methods from the same world, over reports that
    may differ, go through the same worlds and agree on every key that was
    filed or on which the reports agreed before. *)
Lemma scrape_endpoints_agree (l : list Scraper.endpoint) :
  forall (stats1 stats2 : gmap string Scraper.entry) (w : W),
    snd (Scraper.scrape_endpoints str get upsert l (stats1, w))
    = snd (Scraper.scrape_endpoints str get upsert l (stats2, w))
    /\ forall k,
         (exists e, e ∈ l /\ Scraper.name e = k) \/ stats1 !! k = stats2 !! k ->
         fst (Scraper.scrape_endpoints str get upsert l (stats1, w)) !! k
         = fst (Scraper.scrape_endpoints str get upsert l (stats2, w)) !! k.
Proof.
  induction l as [| e l IH]; intros stats1 stats2 w.
  - split; [reflexivity |]. intros k [(e & He & _) | Hk]; [| exact Hk].
    by apply elem_of_nil in He.
  - change (Scraper.scrape_endpoints str get upsert (e :: l) (stats1, w))
      with (Scraper.scrape_endpoints str get upsert l
              (Scraper._scrape str get upsert e (stats1, w))).
    change (Scraper.scrape_endpoints str get upsert (e :: l) (stats2, w))
      with (Scraper.scrape_endpoints str get upsert l
              (Scraper._scrape str get upsert e (stats2, w))).
    unfold Scraper._scrape. cbn [fst snd].
    destruct (Scraper.fetch_store get upsert e w) as [[ex | n] w'].
    + destruct (IH (<[Scraper.name e :=
                       Scraper.mkEntry false None (Some (str ex))]> stats1)
                   (<[Scraper.name e :=
                       Scraper.mkEntry false None (Some (str ex))]> stats2)
                   w') as [Hw Hk].
      split; [exact Hw |]. intros k Hcase. apply Hk.
      destruct (decide (Scraper.name e = k)) as [<- | Hne].
      * right. by rewrite !lookup_insert_eq.
      * destruct Hcase as [(e' & He' & Hname) | Heq].
        -- apply elem_of_cons in He' as [-> | He']; [done | eauto].
        -- right. by rewrite !lookup_insert_ne.
    + destruct (IH (<[Scraper.name e :=
                       Scraper.mkEntry true (Some n) None]> stats1)
                   (<[Scraper.name e :=
                       Scraper.mkEntry true (Some n) None]> stats2)
                   w') as [Hw Hk].
      split; [exact Hw |]. intros k Hcase. apply Hk.
      destruct (decide (Scraper.name e = k)) as [<- | Hne].
      * right. by rewrite !lookup_insert_eq.
      * destruct Hcase as [(e' & He' & Hname) | Heq].
        -- apply elem_of_cons in He' as [-> | He']; [done | eauto].
        -- right. by rewrite !lookup_insert_ne.
Qed.

(** Every key a run files is filed with a well-formed entry. *)
Lemma scrape_endpoints_filed (l : list Scraper.endpoint) :
  forall (self : gmap string Scraper.entry * W) (e : Scraper.endpoint),
    e ∈ l ->
    exists r : E + nat,
      fst (Scraper.scrape_endpoints str get upsert l self) !! Scraper.name e
      = Some (outcome_entry str r).
Proof.
  induction l as [| e' l IH] using rev_ind; intros self e He.
  - by apply elem_of_nil in He.
  - rewrite scrape_endpoints_app.
    change (Scraper.scrape_endpoints str get upsert [e']
              (Scraper.scrape_endpoints str get upsert l self))
      with (Scraper._scrape str get upsert e'
              (Scraper.scrape_endpoints str get upsert l self)).
    destruct (decide (Scraper.name e' = Scraper.name e)) as [Heq | Hne].
    + apply name_inj in Heq as ->. eexists. apply _scrape_own.
    + rewrite _scrape_other by done.
      apply IH. apply elem_of_app in He as [He | He]; [done |].
      apply list_elem_of_singleton in He. congruence.
Qed.

End ReportFacts.

(** X12: once the connection is open, the report [scrape_all] returns
    has an entry for each of the thirteen endpoints, each either
    [{success: true, records: n}] or [{success: false, error: msg}], and
    every other key of [self.stats] is as it was before the run; from the
    empty [stats] of a new scraper the report has exactly the thirteen
    keys. *)
Theorem scrape_all_report_shape
    (W E data : Type) (str : E -> string)
    (connect : W -> (E + unit) * W)
    (get : Scraper.endpoint -> W -> (E + data) * W)
    (upsert : Scraper.endpoint -> data -> W -> (E + nat) * W)
    (stats : gmap string Scraper.entry) (w w0 : W) (u : unit) :
  connect w = (inr u, w0) ->
  exists report,
    fst (Scraper.scrape_all str connect get upsert (stats, w)) = inr report
    /\ (forall e, exists entry,
          report !! Scraper.name e = Some entry
          /\ ((Scraper.success entry = true
               /\ is_Some (Scraper.records entry)
               /\ Scraper.error entry = None)
              \/ (Scraper.success entry = false
                  /\ Scraper.records entry = None
                  /\ is_Some (Scraper.error entry))))
    /\ (forall k, (forall e, Scraper.name e <> k) ->
          report !! k = stats !! k)
    /\ (stats = ∅ ->
        forall k, is_Some (report !! k) <-> exists e, Scraper.name e = k).
Proof.
  intros Hconn. unfold Scraper.scrape_all. cbn [fst snd].
  rewrite Hconn. cbn [fst snd].
  set (report := fst (Scraper.scrape_endpoints str get upsert
                        Scraper.ENDPOINTS (stats, w0))).
  assert (Hfiled : forall e, exists entry,
             report !! Scraper.name e = Some entry
             /\ ((Scraper.success entry = true
                  /\ is_Some (Scraper.records entry)
                  /\ Scraper.error entry = None)
                 \/ (Scraper.success entry = false
                     /\ Scraper.records entry = None
                     /\ is_Some (Scraper.error entry)))).
  { intros e.
    destruct (scrape_endpoints_filed W E data str get upsert
                Scraper.ENDPOINTS (stats, w0) e (elem_of_ENDPOINTS e))
      as [r Hr].
    exists (outcome_entry str r). split; [exact Hr |].
    destruct r as [ex | n]; cbn; [right | left]; eauto. }
  assert (Hother : forall k, (forall e, Scraper.name e <> k) ->
                             report !! k = stats !! k).
  { intros k Hk. subst report. rewrite scrape_endpoints_other; [done |].
    intros e _. apply Hk. }
  exists report. repeat apply conj; try done.
  intros -> k. split.
  - intros Hsome.
    destruct (decide (k ∈ Scraper.name <$> Scraper.ENDPOINTS)) as [Hin | Hno].
    + apply list_elem_of_fmap in Hin as (e & -> & _). eauto.
    + rewrite Hother in Hsome.
      * rewrite lookup_empty in Hsome. by destruct Hsome.
      * intros e He. apply Hno. apply list_elem_of_fmap.
        exists e. split; [done | apply elem_of_ENDPOINTS].
  - intros [e <-]. destruct (Hfiled e) as (entry & -> & _). eauto.
Qed.

Lemma scrape_all_report_shape_witness :
  exists report,
    fst (Scraper.scrape_all id SampleRun.connect SampleRun.get
           SampleRun.upsert (∅, [])) = inr report
    /\ is_Some (report !! "rest_mode_period")
    /\ ~ is_Some (report !! "ring_configuration").
Proof.
  destruct (scrape_all_report_shape (list string) string nat id
              SampleRun.connect SampleRun.get SampleRun.upsert ∅ [] [] tt
              eq_refl) as (report & Hret & _ & _ & Hkeys).
  exists report. split; [exact Hret |]. split.
  - apply (Hkeys eq_refl). by exists Scraper.rest_mode_period.
  - intros Hsome. apply (Hkeys eq_refl) in Hsome as [e He].
    destruct e; discriminate.
Defined.

(** X13: a second run on the same scraper files every endpoint anew: once
    the connection is open, the entries of the thirteen endpoints in the
    report, and the world the run leaves, do not depend on what
    [self.stats] held before the run. *)
Theorem scrape_all_overwrites_earlier_report
    (W E data : Type) (str : E -> string)
    (connect : W -> (E + unit) * W)
    (get : Scraper.endpoint -> W -> (E + data) * W)
    (upsert : Scraper.endpoint -> data -> W -> (E + nat) * W)
    (stats1 stats2 : gmap string Scraper.entry) (w w0 : W) (u : unit) :
  connect w = (inr u, w0) ->
  snd (snd (Scraper.scrape_all str connect get upsert (stats1, w)))
  = snd (snd (Scraper.scrape_all str connect get upsert (stats2, w)))
  /\ forall e,
       fst (snd (Scraper.scrape_all str connect get upsert (stats1, w)))
         !! Scraper.name e
       = fst (snd (Scraper.scrape_all str connect get upsert (stats2, w)))
           !! Scraper.name e.
Proof.
  intros Hconn. unfold Scraper.scrape_all. cbn [fst snd].
  rewrite Hconn. cbn [fst snd].
  destruct (scrape_endpoints_agree W E data str get upsert
              Scraper.ENDPOINTS stats1 stats2 w0) as [Hw Hk].
  split; [exact Hw |]. intros e. apply Hk. left.
  exists e. split; [apply elem_of_ENDPOINTS | done].
Qed.

(** The failure filed for [daily_sleep] by an earlier run is replaced by
    the outcome of this run. *)
Lemma scrape_all_overwrites_earlier_report_witness :
  fst (snd (Scraper.scrape_all id SampleRun.connect SampleRun.get
              SampleRun.upsert
              ({[ "daily_sleep" := Scraper.mkEntry false None (Some "old") ]},
               []))) !! "daily_sleep"
  = Some (Scraper.mkEntry true (Some 3%nat) None).
Proof.
  rewrite (proj2 (scrape_all_overwrites_earlier_report (list string) string
                    nat id SampleRun.connect SampleRun.get SampleRun.upsert
                    {[ "daily_sleep" :=
                         Scraper.mkEntry false None (Some "old") ]}
                    ∅ [] [] tt eq_refl) Scraper.daily_sleep).
  reflexivity.
Defined.

(** ** The API client *)

Section APIClientFacts.

Context {S : Type} `{!TokenStorageProtocol S}.
Variable env : Env.
Variable token_endpoint : grant -> Response.
Variable data : Type.
Variable api : request -> Z * data.

(** Each client call of the scraper is [get_json] on the endpoint's name,
    with the date range for all but [personal_info]. *)
Lemma client_call_get_json (start_date end_date : string)
    (e : Scraper.endpoint) :
  client_call env token_endpoint data api start_date end_date e
  = get_json env token_endpoint data api (Scraper.name e)
      (match e with
       | Scraper.personal_info => None
       | _ => date_range start_date end_date
       end).
Proof. destruct e; reflexivity. Qed.

(** Without a usable cached pair and with nothing to load, a client call
    raises the no-tokens error and changes nothing. *)
Lemma get_json_without_tokens (endpoint : string)
    (query : option (gmap string string)) (self : OuraAPIClient S) :
  cached_valid env (auth self) = None ->
  load env (storage (auth self)) = inr None ->
  get_json env token_endpoint data api endpoint query self
  = (inl (ValueError "No tokens available. Run 'oura-scraper auth' first."),
     self).
Proof.
  intros Hc Hl. unfold get_json, _get_headers.
  rewrite get_valid_token_unfold, Hc, Hl. by destruct self.
Qed.

End APIClientFacts.

(** X14: a client call of the scraper first asks the session manager for
    a token.  When that raises, the call raises the same exception and no
    request is sent.  When it returns a token, exactly one request is
    sent: to the base URL followed by the endpoint's name, with the header
    [Authorization: Bearer <token>], and with [start_date] and [end_date]
    for every endpoint but [personal_info], which passes no parameters;
    the call returns the JSON body on a 2xx status and raises
    [HTTPStatusError] with the status otherwise. *)
Theorem client_call_request
    {S : Type} `{!TokenStorageProtocol S}
    (env : Env) (token_endpoint : grant -> Response)
    (data : Type) (api : request -> Z * data)
    (start_date end_date : string) (e : Scraper.endpoint)
    (self : OuraAPIClient S) :
  (forall ex a,
     get_valid_token env token_endpoint (auth self) = (inl ex, a) ->
     client_call env token_endpoint data api start_date end_date e self
     = (inl ex, mkClient a (base_url self) (sent self)))
  /\ (forall token a,
        get_valid_token env token_endpoint (auth self) = (inr token, a) ->
        let req :=
          mkRequest (base_url self ++ "/" ++ Scraper.name e)
            {[ "Authorization" := "Bearer " ++ token ]}
            (match e with
             | Scraper.personal_info => None
             | _ => Some {[ "start_date" := start_date;
                            "end_date" := end_date ]}
             end) in
        client_call env token_endpoint data api start_date end_date e self
        = (if (200 <=? fst (api req))%Z && (fst (api req) <=? 299)%Z
           then inr (snd (api req))
           else inl (HTTPStatusError (fst (api req))),
           mkClient a (base_url self) (sent self ++ [req]))).
Proof.
  rewrite client_call_get_json. unfold get_json, _get_headers. split.
  - by intros ex a ->.
  - intros token a ->. cbn.
    destruct e; cbn; (destruct (api _) as [status body]; cbn;
      by destruct ((200 <=? status)%Z && (status <=? 299)%Z)).
Qed.

(** A sample API that answers every request with status 200 and three
    records. *)
Lemma client_call_request_witness :
  sent (snd (client_call Sample.env Sample.vendor nat (fun _ => (200, 3%nat))
               "2025-06-24" "2025-07-01" Scraper.heartrate
               (mkClient (Sample.auth Sample.db) BASE_URL [])))
  = [mkRequest "https://api.ouraring.com/v2/usercollection/heartrate"
       {[ "Authorization" := "Bearer access-1" ]}
       (Some {[ "start_date" := "2025-06-24"; "end_date" := "2025-07-01" ]})].
Proof.
  assert (Htoken : get_valid_token Sample.env Sample.vendor
                     (auth (mkClient (Sample.auth Sample.db) BASE_URL []))
                   = (inr "access-1",
                      set_tokens (Sample.auth Sample.db) (Some Sample.pair)))
    by reflexivity.
  rewrite (proj2 (client_call_request Sample.env Sample.vendor nat
                    (fun _ => (200, 3%nat)) "2025-06-24" "2025-07-01"
                    Scraper.heartrate
                    (mkClient (Sample.auth Sample.db) BASE_URL []))
             "access-1"
             (set_tokens (Sample.auth Sample.db) (Some Sample.pair))
             Htoken).
  reflexivity.
Defined.

Section ScrapeWithoutTokens.

Context {S : Type} `{!TokenStorageProtocol S}.
Variable env : Env.
Variable token_endpoint : grant -> Response.
Variable data : Type.
Variable api : request -> Z * data.
Variable D : Type.
Variable http_message : Z -> string.
Variable upsert :
  Scraper.endpoint -> data -> OuraAPIClient S * D ->
  (exn + nat) * (OuraAPIClient S * D).
Variables start_date end_date : string.

(** With no tokens, every [_scrape_*] method files the no-tokens failure
    and leaves the world as it found it. *)
Lemma scrape_endpoints_without_tokens (l : list Scraper.endpoint) :
  forall (stats : gmap string Scraper.entry) (w : OuraAPIClient S * D),
    cached_valid env (auth (fst w)) = None ->
    load env (storage (auth (fst w))) = inr None ->
    snd (Scraper.scrape_endpoints (str_exn http_message)
           (scraper_get env token_endpoint data api D start_date end_date)
           upsert l (stats, w)) = w
    /\ forall e, e ∈ l ->
         fst (Scraper.scrape_endpoints (str_exn http_message)
                (scraper_get env token_endpoint data api D start_date
                   end_date)
                upsert l (stats, w)) !! Scraper.name e
         = Some (Scraper.mkEntry false None
                   (Some "No tokens available. Run 'oura-scraper auth' first.")).
Proof.
  induction l as [| e' l IH] using rev_ind; intros stats w Hc Hl.
  - split; [reflexivity |]. intros e He. by apply elem_of_nil in He.
  - rewrite scrape_endpoints_app.
    destruct (IH stats w Hc Hl) as [Hw Hentries].
    destruct (Scraper.scrape_endpoints _ _ _ l (stats, w))
      as [stats' w'] eqn:Hrun.
    cbn in Hw. subst w'.
    change (Scraper.scrape_endpoints (str_exn http_message)
              (scraper_get env token_endpoint data api D start_date end_date)
              upsert [e'] (stats', w))
      with (Scraper._scrape (str_exn http_message)
              (scraper_get env token_endpoint data api D start_date end_date)
              upsert e' (stats', w)).
    assert (Hstep :
      Scraper._scrape (str_exn http_message)
        (scraper_get env token_endpoint data api D start_date end_date)
        upsert e' (stats', w)
      = (<[Scraper.name e' :=
             Scraper.mkEntry false None
               (Some "No tokens available. Run 'oura-scraper auth' first.")]>
           stats', w)).
    { unfold Scraper._scrape, Scraper.fetch_store, scraper_get.
      cbn [fst snd]. rewrite client_call_get_json.
      rewrite get_json_without_tokens by done. cbn. by destruct w. }
    rewrite Hstep. split; [reflexivity |].
    intros e He. cbn [fst].
    destruct (decide (Scraper.name e' = Scraper.name e)) as [Heq | Hne].
    + rewrite Heq. apply lookup_insert_eq.
    + rewrite lookup_insert_ne by done.
      apply elem_of_app in He as [He | He]; [by apply Hentries |].
      apply list_elem_of_singleton in He. congruence.
Qed.

End ScrapeWithoutTokens.

(** X15: a scrape run without tokens.  When the connection opens, the
    cache holds no unexpired pair and the store has nothing to load, the
    run files, for each of the thirteen endpoints, the failure "No tokens
    available. Run 'oura-scraper auth' first."; it sends no request to the
    API, posts nothing to the token endpoint, and no upsert runs: the
    world after the run is the world after connecting. *)
Theorem scrape_all_without_tokens
    {S : Type} `{!TokenStorageProtocol S}
    (env : Env) (token_endpoint : grant -> Response)
    (data : Type) (api : request -> Z * data)
    (D : Type) (http_message : Z -> string)
    (connect : OuraAPIClient S * D -> (exn + unit) * (OuraAPIClient S * D))
    (upsert : Scraper.endpoint -> data -> OuraAPIClient S * D ->
              (exn + nat) * (OuraAPIClient S * D))
    (start_date end_date : string)
    (stats : gmap string Scraper.entry)
    (w w0 : OuraAPIClient S * D) (u : unit) :
  connect w = (inr u, w0) ->
  cached_valid env (auth (fst w0)) = None ->
  load env (storage (auth (fst w0))) = inr None ->
  let run :=
    Scraper.scrape_all (str_exn http_message) connect
      (scraper_get env token_endpoint data api D start_date end_date)
      upsert (stats, w) in
  snd (snd run) = w0
  /\ exists report,
       fst run = inr report
       /\ forall e,
            report !! Scraper.name e
            = Some (Scraper.mkEntry false None
                      (Some "No tokens available. Run 'oura-scraper auth' first.")).
Proof.
  intros Hconn Hc Hl run. subst run.
  unfold Scraper.scrape_all. cbn [fst snd]. rewrite Hconn. cbn [fst snd].
  destruct (scrape_endpoints_without_tokens env token_endpoint data api D
              http_message upsert start_date end_date Scraper.ENDPOINTS
              stats w0 Hc Hl) as [Hw Hentries].
  split; [exact Hw |]. eexists. split; [reflexivity |].
  intros e. apply Hentries, elem_of_ENDPOINTS.
Qed.

Lemma scrape_all_without_tokens_witness :
  exists report,
    fst (Scraper.scrape_all (str_exn (fun _ => "HTTP error"))
           (fun w => (inr tt, w))
           (scraper_get Sample.env Sample.vendor nat (fun _ => (200, 3%nat))
              unit "2025-06-24" "2025-07-01")
           (fun _ n w => (inr n, w))
           (∅, (mkClient (Sample.auth (mkDatabase true None)) BASE_URL [],
                tt)))
    = inr report
    /\ report !! "heartrate"
       = Some (Scraper.mkEntry false None
                 (Some "No tokens available. Run 'oura-scraper auth' first.")).
Proof.
  assert (Hc : cached_valid Sample.env
                 (auth (fst (mkClient (Sample.auth (mkDatabase true None))
                               BASE_URL [], tt))) = None) by reflexivity.
  assert (Hl : load Sample.env
                 (storage
                    (auth (fst (mkClient (Sample.auth (mkDatabase true None))
                                  BASE_URL [], tt)))) = inr None)
    by reflexivity.
  destruct (scrape_all_without_tokens Sample.env Sample.vendor nat
              (fun _ => (200, 3%nat)) unit (fun _ => "HTTP error")
              (fun w => (inr tt, w)) (fun _ n w => (inr n, w))
              "2025-06-24" "2025-07-01" ∅
              (mkClient (Sample.auth (mkDatabase true None)) BASE_URL [], tt)
              (mkClient (Sample.auth (mkDatabase true None)) BASE_URL [], tt)
              tt eq_refl Hc Hl)
    as (_ & report & Hret & Hentries).
  exists report. split; [exact Hret |]. apply (Hentries Scraper.heartrate).
Defined.

(** ** Database operations: upserts *)

Section UpsertFacts.

Context {K : Type} `{Countable K} {Rec Row : Type}.
Variable key : Rec -> K.
Variable inserted : Rec -> Row.
Variable updated : Row -> Rec -> Row.

Lemma execute_own (table : gmap K Row) (record : Rec) :
  execute key inserted updated table record !! key record
  = row_after inserted updated (table !! key record) record.
Proof.
  unfold execute, row_after.
  destruct (table !! key record); by rewrite lookup_insert_eq.
Qed.

Lemma execute_other (table : gmap K Row) (record : Rec) (k : K) :
  key record <> k ->
  execute key inserted updated table record !! k = table !! k.
Proof.
  intros Hne. unfold execute.
  destruct (table !! key record); by rewrite lookup_insert_ne.
Qed.

(** The row under [k] after a batch is the row after the statements of
    the records with key [k], in order. *)
Lemma foldl_execute_lookup (records : list Rec) (k : K) :
  forall table : gmap K Row,
    foldl (execute key inserted updated) table records !! k
    = foldl (row_after inserted updated) (table !! k)
        (filter (fun r => key r = k) records).
Proof.
  induction records as [| r records IH]; intros table; [reflexivity |].
  cbn [foldl]. rewrite IH.
  destruct (decide (key r = k)) as [Hk | Hk].
  - rewrite filter_cons_True by done. cbn [foldl].
    subst k. by rewrite execute_own.
  - rewrite filter_cons_False by done. by rewrite execute_other.
Qed.

(** Statements never remove a row. *)
Lemma foldl_row_after_some (records : list Rec) :
  forall o : option Row,
    is_Some o -> is_Some (foldl (row_after inserted updated) o records).
Proof.
  induction records as [| r records IH]; intros o Ho; [done |].
  cbn [foldl]. apply IH. unfold row_after. eauto.
Qed.

(** The conflict clauses of the two tables: an update replaces the same
    columns whatever the row held in them, and updating a freshly inserted
    row by its own record changes nothing. *)
Hypothesis updated_updated :
  forall old r1 r2, updated (updated old r1) r2 = updated old r2.
Hypothesis updated_inserted :
  forall r, updated (inserted r) r = inserted r.

Lemma foldl_row_after_similar (records : list Rec) :
  forall R : Row,
    exists Y, foldl (row_after inserted updated) (Some R) records = Some Y
              /\ forall r, updated Y r = updated R r.
Proof.
  induction records as [| r' records IH]; intros R; [by exists R |].
  cbn [foldl row_after].
  destruct (IH (updated R r')) as (Y & HY & Hsim).
  exists Y. split; [exact HY |].
  intros r. by rewrite Hsim, updated_updated.
Qed.

Lemma foldl_row_after_absorb (records : list Rec) (o : option Row) :
  foldl (row_after inserted updated)
    (foldl (row_after inserted updated) o records) records
  = foldl (row_after inserted updated) o records.
Proof.
  destruct records as [| r0 records0] using rev_ind; [reflexivity |].
  clear IHrecords0. rewrite !foldl_app. cbn [foldl].
  set (before := foldl (row_after inserted updated) o records0).
  assert (Hlast : exists R, row_after inserted updated before r0 = Some R
                            /\ updated R r0 = R).
  { unfold row_after. destruct before as [X |].
    - eexists. split; [reflexivity |]. apply updated_updated.
    - eexists. split; [reflexivity |]. apply updated_inserted. }
  destruct Hlast as (R & -> & Hfix).
  destruct (foldl_row_after_similar records0 R) as (Y & -> & Hsim).
  unfold row_after. by rewrite Hsim, Hfix.
Qed.

(** Running a batch a second time changes nothing. *)
Lemma foldl_execute_idempotent (records : list Rec) (table : gmap K Row) :
  foldl (execute key inserted updated)
    (foldl (execute key inserted updated) table records) records
  = foldl (execute key inserted updated) table records.
Proof.
  apply map_eq. intros k.
  rewrite !foldl_execute_lookup. apply foldl_row_after_absorb.
Qed.

End UpsertFacts.

Section UpsertRows.

Context {K : Type} `{Countable K} {Rec Row : Type}.
Variable key : Rec -> K.
Variable inserted : Rec -> Row.
Variable updated : Row -> Rec -> Row.

(** A batch leaves the rows of the keys it does not mention alone. *)
Lemma foldl_execute_untouched (records : list Rec) (k : K) :
  forall table : gmap K Row,
    (forall r, r ∈ records -> key r <> k) ->
    foldl (execute key inserted updated) table records !! k = table !! k.
Proof.
  induction records as [| r records IH]; intros table Hk; [reflexivity |].
  cbn [foldl]. rewrite IH.
  - apply execute_other. apply Hk. by left.
  - intros r' Hr'. apply Hk. by right.
Qed.

(** The row under the key of the last record that carries it comes from
    that record's statement. *)
Lemma foldl_execute_last (before after : list Rec) (r : Rec)
    (table : gmap K Row) :
  (forall r', r' ∈ after -> key r' <> key r) ->
  foldl (execute key inserted updated) table (before ++ r :: after) !! key r
  = row_after inserted updated
      (foldl (execute key inserted updated) table before !! key r) r.
Proof.
  intros Hafter. rewrite foldl_app. cbn [foldl].
  rewrite foldl_execute_untouched by done. apply execute_own.
Qed.

(** A property of rows that every update keeps is kept by a batch for
    the rows that exist. *)
Lemma foldl_execute_keeps (P : Row -> Prop) (records : list Rec) (k : K) :
  (forall old r, P old -> P (updated old r)) ->
  forall (table : gmap K Row) (old : Row),
    table !! k = Some old -> P old ->
    exists row,
      foldl (execute key inserted updated) table records !! k = Some row
      /\ P row.
Proof.
  intros Hkeep.
  induction records as [| r records IH]; intros table old Hold HP;
    [by exists old |].
  cbn [foldl].
  destruct (decide (key r = k)) as [<- | Hne].
  - apply (IH _ (updated old r)); [| by apply Hkeep].
    by rewrite execute_own, Hold.
  - apply (IH _ old); [| done]. by rewrite execute_other.
Qed.

End UpsertRows.

(** X16: [upsert_heart_rate] and [upsert_daily_stress] on an empty batch
    return 0 and leave the connection as it is: no statement, no commit.
    On another batch they return the number of records in it and commit;
    no existing row disappears, and the rows whose key no record of the
    batch carries are unchanged. *)
Theorem upsert_batch_effect
    (hr_records : list heart_rate_record)
    (hr_conn : Connection (gmap Z heart_rate_row))
    (ds_records : list daily_stress_record)
    (ds_conn : Connection (gmap string daily_stress_row)) :
  upsert_heart_rate [] hr_conn = (0%nat, hr_conn)
  /\ upsert_daily_stress [] ds_conn = (0%nat, ds_conn)
  /\ fst (upsert_heart_rate hr_records hr_conn) = length hr_records
  /\ fst (upsert_daily_stress ds_records ds_conn) = length ds_records
  /\ (hr_records <> [] ->
      committed (snd (upsert_heart_rate hr_records hr_conn))
      = current (snd (upsert_heart_rate hr_records hr_conn))
      /\ (forall t, is_Some (current hr_conn !! t) ->
            is_Some (committed (snd (upsert_heart_rate hr_records hr_conn))
                       !! t))
      /\ (forall t, (forall r, r ∈ hr_records -> hr_timestamp r <> t) ->
            committed (snd (upsert_heart_rate hr_records hr_conn)) !! t
            = current hr_conn !! t))
  /\ (ds_records <> [] ->
      committed (snd (upsert_daily_stress ds_records ds_conn))
      = current (snd (upsert_daily_stress ds_records ds_conn))
      /\ (forall i, is_Some (current ds_conn !! i) ->
            is_Some (committed (snd (upsert_daily_stress ds_records ds_conn))
                       !! i))
      /\ (forall i, (forall r, r ∈ ds_records -> ds_id r <> i) ->
            committed (snd (upsert_daily_stress ds_records ds_conn)) !! i
            = current ds_conn !! i)).
Proof.
  repeat apply conj.
  - reflexivity.
  - reflexivity.
  - by destruct hr_records.
  - by destruct ds_records.
  - intros Hne. destruct hr_records as [| r records]; [done |].
    unfold upsert_heart_rate, upsert. cbn [fst snd committed current].
    repeat apply conj.
    + reflexivity.
    + intros t Hsome. rewrite foldl_execute_lookup.
      by apply foldl_row_after_some.
    + intros t Ht. by apply foldl_execute_untouched.
  - intros Hne. destruct ds_records as [| r records]; [done |].
    unfold upsert_daily_stress, upsert. cbn [fst snd committed current].
    repeat apply conj.
    + reflexivity.
    + intros i Hsome. rewrite foldl_execute_lookup.
      by apply foldl_row_after_some.
    + intros i Hi. by apply foldl_execute_untouched.
Qed.

(** X17: both upserts are idempotent: running the same batch again on the
    connection the first run left returns the same count and leaves the
    same tables, so no record is stored twice. *)
Theorem upsert_idempotent
    (hr_records : list heart_rate_record)
    (hr_conn : Connection (gmap Z heart_rate_row))
    (ds_records : list daily_stress_record)
    (ds_conn : Connection (gmap string daily_stress_row)) :
  upsert_heart_rate hr_records
    (snd (upsert_heart_rate hr_records hr_conn))
  = upsert_heart_rate hr_records hr_conn
  /\ upsert_daily_stress ds_records
       (snd (upsert_daily_stress ds_records ds_conn))
     = upsert_daily_stress ds_records ds_conn.
Proof.
  split.
  - destruct hr_records as [| r records]; [reflexivity |].
    unfold upsert_heart_rate, upsert. cbn [fst snd committed current].
    by rewrite foldl_execute_idempotent.
  - destruct ds_records as [| r records]; [reflexivity |].
    unfold upsert_daily_stress, upsert. cbn [fst snd committed current].
    by rewrite foldl_execute_idempotent.
Qed.

(** X18: after [upsert_heart_rate], the row under a timestamp of the batch
    holds the [bpm] and [source] of the last record of the batch with that
    timestamp, whatever the table held under it. *)
Theorem upsert_heart_rate_last_wins
    (before after : list heart_rate_record) (r : heart_rate_record)
    (conn : Connection (gmap Z heart_rate_row)) :
  (forall r', r' ∈ after -> hr_timestamp r' <> hr_timestamp r) ->
  committed (snd (upsert_heart_rate (before ++ r :: after) conn))
    !! hr_timestamp r
  = Some (mkHeartRateRow (hr_bpm r) (hr_source r)).
Proof.
  intros Hafter. unfold upsert_heart_rate, upsert.
  destruct (before ++ r :: after)%list as [| r0 l] eqn:Heq.
  { by destruct before. }
  rewrite <- Heq. cbn [snd committed].
  rewrite foldl_execute_last by done. unfold row_after.
  by destruct (_ !! _).
Qed.

Lemma upsert_heart_rate_last_wins_witness :
  committed (snd (upsert_heart_rate
                    [mkHeartRate 1751367600000000 61 "awake";
                     mkHeartRate 1751367600000000 58 "rest"]
                    (mkConnection ∅ ∅)))
    !! 1751367600000000
  = Some (mkHeartRateRow 58 "rest").
Proof.
  apply (upsert_heart_rate_last_wins
           [mkHeartRate 1751367600000000 61 "awake"] []
           (mkHeartRate 1751367600000000 58 "rest") (mkConnection ∅ ∅)).
  intros r' Hr'. by apply elem_of_nil in Hr'.
Defined.

(** X19: [upsert_daily_stress] never changes the [day] of a row that
    exists: a record with a known [id] and another [day] updates the three
    measures and keeps the stored day.  The measures of the row under an
    id of the batch are those of the last record of the batch with that
    id. *)
Theorem upsert_daily_stress_keeps_day
    (before after : list daily_stress_record) (r : daily_stress_record)
    (conn : Connection (gmap string daily_stress_row)) :
  (forall r', r' ∈ after -> ds_id r' <> ds_id r) ->
  (exists row,
     committed (snd (upsert_daily_stress (before ++ r :: after) conn))
       !! ds_id r = Some row
     /\ row_stress_high row = ds_stress_high r
     /\ row_recovery_high row = ds_recovery_high r
     /\ row_day_summary row = ds_day_summary r)
  /\ (forall i old, current conn !! i = Some old ->
        exists row,
          committed (snd (upsert_daily_stress (before ++ r :: after) conn))
            !! i = Some row
          /\ row_day row = row_day old).
Proof.
  intros Hafter. unfold upsert_daily_stress, upsert.
  destruct (before ++ r :: after)%list as [| r0 l] eqn:Heq.
  { by destruct before. }
  rewrite <- Heq. cbn [snd committed]. split.
  - rewrite foldl_execute_last by done. unfold row_after.
    destruct (_ !! _); eexists; (split; [reflexivity | done]).
  - intros i old Hold.
    apply (foldl_execute_keeps ds_id _ _
             (fun row => row_day row = row_day old) _ i)
      with (old := old); done.
Qed.

(** A record that moves a known id to another day changes the measures
    and leaves the stored day. *)
Lemma upsert_daily_stress_keeps_day_witness :
  committed (snd (upsert_daily_stress
                    [mkDailyStress "id-1" 20271 (Some 40) (Some 10) None]
                    (mkConnection
                       {[ "id-1" := mkDailyStressRow 20270 (Some 5) None None ]}
                       {[ "id-1" := mkDailyStressRow 20270 (Some 5) None None ]})))
    !! "id-1"
  = Some (mkDailyStressRow 20270 (Some 40) (Some 10) None).
Proof.
  destruct (upsert_daily_stress_keeps_day []
              [] (mkDailyStress "id-1" 20271 (Some 40) (Some 10) None)
              (mkConnection
                 {[ "id-1" := mkDailyStressRow 20270 (Some 5) None None ]}
                 {[ "id-1" := mkDailyStressRow 20270 (Some 5) None None ]}))
    as [(row & Hrow & Hs & Hr & Hd) Hday].
  { intros r' Hr'. by apply elem_of_nil in Hr'. }
  destruct (Hday "id-1" (mkDailyStressRow 20270 (Some 5) None None) eq_refl)
    as (row' & Hrow' & Hday').
  assert (Heq : Some row = Some row') by (rewrite <- Hrow; exact Hrow').
  injection Heq as <-.
  transitivity (Some row); [exact Hrow |].
  destruct row as [d s rc ds]. cbn in *. by subst.
Defined.

(** ** Token responses *)

(** X20: the pair built from a token response carries the response's two
    tokens, the response's [token_type] or "bearer", and expires
    [expires_in] seconds after now, a day when the response has no
    [expires_in]; under the five-minute margin it counts as expired from
    [expires_in - 300] seconds after now on. *)
Theorem issued_pair_lifetime
    (env : Env) (response : token_response) (p : OAuthTokens) :
  from_token_response env response = inr p ->
  response_access_token response = Some (access_token p)
  /\ response_refresh_token response = Some (refresh_token p)
  /\ token_type p = default "bearer" (response_token_type response)
  /\ (response_expires_in response = None ->
      expires_at p = now env + 86400 * 1000000)
  /\ (forall n, response_expires_in response = Some n ->
        expires_at p = now env + n * 1000000)
  /\ (forall t,
        is_expired t p = true
        <-> t >= now env
                 + (default 86400 (response_expires_in response) - 300)
                   * 1000000).
Proof.
  intros Hp. apply from_token_response_expiry in Hp as (He & Ha & Hr & Ht).
  repeat apply conj; try done.
  - intros Hnone. rewrite He, Hnone. reflexivity.
  - intros n Hn. rewrite He, Hn. reflexivity.
  - intros t. unfold is_expired. rewrite He. unfold minutes, seconds.
    rewrite Z.geb_le. lia.
Qed.

Lemma issued_pair_lifetime_witness :
  is_expired (1751367600000000 + 86100 * 1000000)
    (mkOAuthTokens "access-1" "refresh-1"
       (1751367600000000 + 86400 * 1000000) "bearer") = true.
Proof.
  apply (proj2 (proj2 (proj2 (proj2 (proj2
           (issued_pair_lifetime Sample.env
              (mkTokenResponse (Some "access-1") (Some "refresh-1") None None)
              (mkOAuthTokens "access-1" "refresh-1"
                 (1751367600000000 + 86400 * 1000000) "bearer")
              eq_refl)))))
           (1751367600000000 + 86100 * 1000000)).
  cbn. lia.
Defined.
